(** * useCamera: the per-frame pipeline of the camera hook

    A shallow embedding of [src/components/useCamera.ts].  The source file
    carries two variants of the hook [useCamera]; they are embedded as the
    modules [V1] (lines 1-143) and [V2] (lines 144-304).

    Modelling choices, shared by both variants:
    - a Vue [ref] cell is a field of the hook's [State] record; a template
      ref that is [undefined] is [None] ([null], which Vue only writes on
      unmount, is outside the model);
    - the hook runs on one thread.  A task of the event loop is an [Event];
      [step] runs the handler of the task and then drains the microtask
      queue, as the event loop does;
    - [await e] on a value that is not a promise suspends the function for
      one microtask: the suspended rest of [addLandmarks] is queued in
      [microtasks] with the value it awaits;
    - the inference engine is external: [detectSingleFace(..)] is a promise
      that the environment settles later, by the event [DetectionDone];
      [inFlight] counts the detections started and not yet settled;
    - mood values are integers ([Z]); frame sizes are unsigned ([N]). *)

From Stdlib Require Import ZArith NArith QArith String List Bool Lia.
From Stdlib Require Import DecimalString DecimalPos DecimalZ.
Import ListNotations.

Local Open Scope Z_scope.

(** ** Data shared by the two variants *)

(** A template literal [`${n}`] on an integer number.  The digits are
    those JavaScript prints for an integer it holds exactly and below
    1e21; the hook only prints moods, which lie between 0 and 185. *)
Definition template_int (n : Z) : string :=
  NilZero.string_of_int (Z.to_int n).

(** face-api.js [FaceLandmarks68]: an opaque set of points. *)
Record FaceLandmarks := mkFaceLandmarks {
  positions : list (Z * Z)
}.

(** One entry of [FaceExpressions.asSortedArray()]. *)
Record ExpressionEntry := mkExpressionEntry {
  expression : string;
  probability : Q
}.

(** [FaceExpressions], seen through its only method the hook calls:
    [asSortedArray()] is the engine's ranking, best score first. *)
Record FaceExpressions := mkFaceExpressions {
  asSortedArray : list ExpressionEntry
}.

(** What [detectSingleFace(..).withFaceLandmarks().withFaceExpressions()]
    resolves to when a face is found ([undefined] otherwise). *)
Record Detection := mkDetection {
  landmarks : option FaceLandmarks;
  expressions : FaceExpressions
}.

(** [HTMLVideoElement], the attributes the hook reads or sets. *)
Record Video := mkVideo {
  paused : bool;
  ended : bool;
  srcObject : bool
}.

(** [HTMLCanvasElement]: pixel size, whether [getContext('2d')] answers,
    [style.filter], and the draw calls issued on it. *)
Record Canvas := mkCanvas {
  width : N;
  height : N;
  context2d : bool;
  style_filter : option string;
  landmarksDrawn : list FaceLandmarks;
  imagesDrawn : nat
}.

(** [style.background] as written by the hook:
    [`rgb(250 150 150 / ${mood / 180})`], kept as its alpha quotient. *)
Record FilterElement := mkFilterElement {
  background_alpha : option Q
}.

Inductive CanvasRenderingContext2D := Context2D.

Definition getContext (_canvas : option Canvas)
  : option CanvasRenderingContext2D :=
  match _canvas with
  | None => None
  | Some c => if context2d c then Some Context2D else None
  end.

Definition set_width (w : N) (c : Canvas) : Canvas :=
  mkCanvas w (height c) (context2d c) (style_filter c)
           (landmarksDrawn c) (imagesDrawn c).

Definition set_height (h : N) (c : Canvas) : Canvas :=
  mkCanvas (width c) h (context2d c) (style_filter c)
           (landmarksDrawn c) (imagesDrawn c).

Definition set_style_filter (s : string) (c : Canvas) : Canvas :=
  mkCanvas (width c) (height c) (context2d c) (Some s)
           (landmarksDrawn c) (imagesDrawn c).

(** [faceapi.draw.drawFaceLandmarks(canvas, lm)]. *)
Definition drawFaceLandmarks (lm : FaceLandmarks) (c : Canvas) : Canvas :=
  mkCanvas (width c) (height c) (context2d c) (style_filter c)
           (landmarksDrawn c ++ [lm]) (imagesDrawn c).

(** [ctx.drawImage(video, 0, 0)]. *)
Definition drawImage (c : Canvas) : Canvas :=
  mkCanvas (width c) (height c) (context2d c) (style_filter c)
           (landmarksDrawn c) (S (imagesDrawn c)).

(** [video.srcObject = stream; video.play()]. *)
Definition play (v : Video) : Video := mkVideo false (ended v) true.

(** [landmarks?.landmarks] on the awaited value. *)
Definition awaited_landmarks (d : option Detection) : option FaceLandmarks :=
  match d with
  | None => None
  | Some d => landmarks d
  end.

(** The label ranked first, [asSortedArray()[0]], if any. *)
Definition top_expression (d : Detection) : option string :=
  match asSortedArray (expressions d) with
  | [] => None
  | e :: _ => Some (expression e)
  end.

(** What the environment does between two tasks of the hook: Vue binds the
    template refs, the player pauses, resumes or ends the video.  A ref may
    receive any value at any time, more than Vue does (it never puts a
    bound ref back to [undefined]): what holds on every run of the model
    holds on every run of the hook. *)
Inductive EnvEvent :=
| BindVideo (v : option Video)
| BindCanvas (c : option Canvas)
| BindCanvasRaw (c : option Canvas)
| BindFilter (f : option FilterElement).

(** The tasks of the event loop that reach the hook. *)
Inductive Event :=
| Env (e : EnvEvent)
| ModelLoaded
| StreamReady
| Frame (metadata_width metadata_height : N)
| DetectionDone (result : option Detection).

(** ** Second variant (lines 144-304): the hook with the mood machine *)
Module V2.

Record State := mkState {
  modelLoaded : bool;
  videoElement : option Video;
  canvasElement : option Canvas;
  filterElement : option FilterElement;
  size : N * N;
  detections : option Detection;
  mood : Z;
  previousLandmarkDrawn : bool;
  previousDetectionFinished : bool;
  (* the run time around the hook *)
  console : list string;
  inFlight : nat;
  microtasks : list (option Detection);
  frameCallbacks : nat
}.

Definition init : State :=
  mkState false None None None (0%N, 0%N) None 180 true true [] 0 [] 0.

Definition set_modelLoaded (b : bool) (s : State) : State :=
  mkState b (videoElement s) (canvasElement s) (filterElement s) (size s)
    (detections s) (mood s) (previousLandmarkDrawn s)
    (previousDetectionFinished s) (console s) (inFlight s) (microtasks s)
    (frameCallbacks s).

Definition set_videoElement (v : option Video) (s : State) : State :=
  mkState (modelLoaded s) v (canvasElement s) (filterElement s) (size s)
    (detections s) (mood s) (previousLandmarkDrawn s)
    (previousDetectionFinished s) (console s) (inFlight s) (microtasks s)
    (frameCallbacks s).

Definition set_canvasElement (c : option Canvas) (s : State) : State :=
  mkState (modelLoaded s) (videoElement s) c (filterElement s) (size s)
    (detections s) (mood s) (previousLandmarkDrawn s)
    (previousDetectionFinished s) (console s) (inFlight s) (microtasks s)
    (frameCallbacks s).

Definition set_filterElement (f : option FilterElement) (s : State) : State :=
  mkState (modelLoaded s) (videoElement s) (canvasElement s) f (size s)
    (detections s) (mood s) (previousLandmarkDrawn s)
    (previousDetectionFinished s) (console s) (inFlight s) (microtasks s)
    (frameCallbacks s).

Definition set_size (sz : N * N) (s : State) : State :=
  mkState (modelLoaded s) (videoElement s) (canvasElement s)
    (filterElement s) sz (detections s) (mood s) (previousLandmarkDrawn s)
    (previousDetectionFinished s) (console s) (inFlight s) (microtasks s)
    (frameCallbacks s).

Definition set_detections (d : option Detection) (s : State) : State :=
  mkState (modelLoaded s) (videoElement s) (canvasElement s)
    (filterElement s) (size s) d (mood s) (previousLandmarkDrawn s)
    (previousDetectionFinished s) (console s) (inFlight s) (microtasks s)
    (frameCallbacks s).

Definition set_mood (m : Z) (s : State) : State :=
  mkState (modelLoaded s) (videoElement s) (canvasElement s)
    (filterElement s) (size s) (detections s) m (previousLandmarkDrawn s)
    (previousDetectionFinished s) (console s) (inFlight s) (microtasks s)
    (frameCallbacks s).

Definition set_previousLandmarkDrawn (b : bool) (s : State) : State :=
  mkState (modelLoaded s) (videoElement s) (canvasElement s)
    (filterElement s) (size s) (detections s) (mood s) b
    (previousDetectionFinished s) (console s) (inFlight s) (microtasks s)
    (frameCallbacks s).

Definition console_log (msg : string) (s : State) : State :=
  mkState (modelLoaded s) (videoElement s) (canvasElement s)
    (filterElement s) (size s) (detections s) (mood s)
    (previousLandmarkDrawn s) (previousDetectionFinished s)
    (console s ++ [msg]) (inFlight s) (microtasks s) (frameCallbacks s).

Definition set_inFlight (n : nat) (s : State) : State :=
  mkState (modelLoaded s) (videoElement s) (canvasElement s)
    (filterElement s) (size s) (detections s) (mood s)
    (previousLandmarkDrawn s) (previousDetectionFinished s) (console s) n
    (microtasks s) (frameCallbacks s).

Definition set_microtasks (q : list (option Detection)) (s : State) : State :=
  mkState (modelLoaded s) (videoElement s) (canvasElement s)
    (filterElement s) (size s) (detections s) (mood s)
    (previousLandmarkDrawn s) (previousDetectionFinished s) (console s)
    (inFlight s) q (frameCallbacks s).

Definition set_frameCallbacks (n : nat) (s : State) : State :=
  mkState (modelLoaded s) (videoElement s) (canvasElement s)
    (filterElement s) (size s) (detections s) (mood s)
    (previousLandmarkDrawn s) (previousDetectionFinished s) (console s)
    (inFlight s) (microtasks s) n.

(** [ctx = computed(() => getContext(canvasElement.value))] *)
Definition ctx (s : State) : option CanvasRenderingContext2D :=
  getContext (canvasElement s).

(** Lines 184-190, the part after the three awaits. *)
Definition loadModel (s : State) : State := set_modelLoaded true s.

(** [videoElement.value.requestVideoFrameCallback(..)] *)
Definition requestVideoFrameCallback (s : State) : State :=
  set_frameCallbacks (S (frameCallbacks s)) s.

(** Lines 198-205. *)
Definition handleStream (s : State) : State :=
  match videoElement s, canvasElement s with
  | Some v, Some _ =>
      set_videoElement (Some (play v)) (requestVideoFrameCallback s)
  | _, _ => s
  end.

(** Lines 289-294. *)
Definition resizeCanvas (sz : N * N) (s : State) : State :=
  match canvasElement s with
  | None => s
  | Some c => set_canvasElement (Some (set_height (snd sz) (set_width (fst sz) c))) s
  end.

(** Lines 241-258, up to the [await]: the four early exits, then the call
    of the engine. *)
Definition detectFaces (s : State) : State :=
  if negb (modelLoaded s) then s else
  match videoElement s with
  | None => s
  | Some v =>
      if paused v || ended v then s else
      if negb (previousDetectionFinished s) then s else
      set_inFlight (S (inFlight s)) s
  end.

(** Lines 254-257, after the [await]: the assignment to [detections]. *)
Definition detectFaces_resume (result : option Detection) (s : State) : State :=
  match inFlight s with
  | O => s
  | S n => set_detections result (set_inFlight n s)
  end.

(** Lines 228-233, up to the [await]: the two early exits, then the read of
    [detections.value], which is what the function awaits. *)
Definition addLandmarks (s : State) : State :=
  match canvasElement s with
  | None => s
  | Some _ =>
      if negb (previousLandmarkDrawn s) then s else
      set_microtasks (microtasks s ++ [detections s]) s
  end.

(** Lines 233-237, after the [await].  [drawFaceLandmarks] throws on a
    missing canvas, which rejects the function before the flag is set. *)
Definition addLandmarks_resume (awaited : option Detection) (s : State) : State :=
  match awaited_landmarks awaited with
  | Some lm =>
      match canvasElement s with
      | Some c =>
          set_previousLandmarkDrawn true
            (set_canvasElement (Some (drawFaceLandmarks lm c)) s)
      | None => s
      end
  | None => set_previousLandmarkDrawn true s
  end.

(** The [switch] of lines 267-282 on the mood alone. *)
Definition mood_transition (label : string) (m : Z) : Z :=
  if (label =? "happy")%string then (if m <? 180 then m + 10 else 180)
  else if (label =? "neutral")%string then (if m >? 0 then m - 5 else 0)
  else if (label =? "sad")%string then 0
  else if (label =? "angry")%string then 0
  else m.

(** Lines 260-287. *)
Definition updateMood (s : State) : State :=
  match detections s with
  | None => s
  | Some d =>
      match asSortedArray (expressions d) with
      | [] => s
      | e :: _ =>
          let s1 :=
            if (expression e =? "happy")%string then
              set_mood (if mood s <? 180 then mood s + 10 else 180) s
            else if (expression e =? "neutral")%string then
              set_mood (if mood s >? 0 then mood s - 5 else 0) s
            else if (expression e =? "sad")%string then set_mood 0 s
            else if (expression e =? "angry")%string then set_mood 0 s
            else console_log (expression e) s in
          match filterElement s1 with
          | None => s1
          | Some _ =>
              set_filterElement
                (Some (mkFilterElement (Some (Qmake (mood s1) 180)))) s1
          end
      end
  end.

(** [canvasElement.value.style.filter = `hue-rotate(${mood.value}deg)`] *)
Definition filter_style (m : Z) : string :=
  ("hue-rotate(" ++ template_int m ++ "deg)")%string.

Definition assign_filter (s : State) : State :=
  match canvasElement s with
  | None => s
  | Some c =>
      set_canvasElement (Some (set_style_filter (filter_style (mood s)) c)) s
  end.

(** Lines 207-225. *)
Definition frameCallback (metadata_width metadata_height : N) (s : State)
  : State :=
  match ctx s, videoElement s, canvasElement s with
  | Some _, Some _, Some _ =>
      let s := set_size (metadata_width, metadata_height) s in
      let s := resizeCanvas (size s) s in
      let s := detectFaces s in
      let s := addLandmarks s in
      let s := updateMood s in
      let s := assign_filter s in
      requestVideoFrameCallback s
  | _, _, _ => s
  end.

(** The microtask checkpoint at the end of a task: the suspended
    [addLandmarks] calls resume, oldest first. *)
Definition runMicrotasks (s : State) : State :=
  fold_left (fun s awaited => addLandmarks_resume awaited s)
            (microtasks s) (set_microtasks [] s).

Definition env_step (e : EnvEvent) (s : State) : State :=
  match e with
  | BindVideo v => set_videoElement v s
  | BindCanvas c => set_canvasElement c s
  | BindCanvasRaw _ => s
  | BindFilter f => set_filterElement f s
  end.

(** The handler of one task, without the microtask checkpoint.  A frame is
    delivered to a registered callback only, and consumes the registration. *)
Definition handler (ev : Event) (s : State) : State :=
  match ev with
  | Env e => env_step e s
  | ModelLoaded => loadModel s
  | StreamReady => handleStream s
  | Frame w h =>
      match frameCallbacks s with
      | O => s
      | S n => frameCallback w h (set_frameCallbacks n s)
      end
  | DetectionDone result => detectFaces_resume result s
  end.

Definition step (s : State) (ev : Event) : State :=
  runMicrotasks (handler ev s).

Definition run (evs : list Event) (s : State) : State :=
  fold_left step evs s.

Definition reachable (s : State) : Prop :=
  exists evs, s = run evs init.

End V2.

(** ** First variant (lines 1-143): two canvases, no mood machine *)
Module V1.

Record State := mkState {
  modelLoaded : bool;
  videoElement : option Video;
  canvasRawElement : option Canvas;
  canvasElement : option Canvas;
  size : N * N;
  detections : option Detection;
  mood : Z;
  previousLandmarkDrawn : bool;
  previousDetectionFinished : bool;
  (* the run time around the hook *)
  inFlight : nat;
  microtasks : list (option Detection);
  frameCallbacks : nat
}.

Definition init : State :=
  mkState false None None None (0%N, 0%N) None 0 true true 0 [] 0.

Definition set_modelLoaded (b : bool) (s : State) : State :=
  mkState b (videoElement s) (canvasRawElement s) (canvasElement s) (size s)
    (detections s) (mood s) (previousLandmarkDrawn s)
    (previousDetectionFinished s) (inFlight s) (microtasks s)
    (frameCallbacks s).

Definition set_videoElement (v : option Video) (s : State) : State :=
  mkState (modelLoaded s) v (canvasRawElement s) (canvasElement s) (size s)
    (detections s) (mood s) (previousLandmarkDrawn s)
    (previousDetectionFinished s) (inFlight s) (microtasks s)
    (frameCallbacks s).

Definition set_canvasRawElement (c : option Canvas) (s : State) : State :=
  mkState (modelLoaded s) (videoElement s) c (canvasElement s) (size s)
    (detections s) (mood s) (previousLandmarkDrawn s)
    (previousDetectionFinished s) (inFlight s) (microtasks s)
    (frameCallbacks s).

Definition set_canvasElement (c : option Canvas) (s : State) : State :=
  mkState (modelLoaded s) (videoElement s) (canvasRawElement s) c (size s)
    (detections s) (mood s) (previousLandmarkDrawn s)
    (previousDetectionFinished s) (inFlight s) (microtasks s)
    (frameCallbacks s).

Definition set_size (sz : N * N) (s : State) : State :=
  mkState (modelLoaded s) (videoElement s) (canvasRawElement s)
    (canvasElement s) sz (detections s) (mood s) (previousLandmarkDrawn s)
    (previousDetectionFinished s) (inFlight s) (microtasks s)
    (frameCallbacks s).

Definition set_detections (d : option Detection) (s : State) : State :=
  mkState (modelLoaded s) (videoElement s) (canvasRawElement s)
    (canvasElement s) (size s) d (mood s) (previousLandmarkDrawn s)
    (previousDetectionFinished s) (inFlight s) (microtasks s)
    (frameCallbacks s).

Definition set_previousLandmarkDrawn (b : bool) (s : State) : State :=
  mkState (modelLoaded s) (videoElement s) (canvasRawElement s)
    (canvasElement s) (size s) (detections s) (mood s) b
    (previousDetectionFinished s) (inFlight s) (microtasks s)
    (frameCallbacks s).

Definition set_inFlight (n : nat) (s : State) : State :=
  mkState (modelLoaded s) (videoElement s) (canvasRawElement s)
    (canvasElement s) (size s) (detections s) (mood s)
    (previousLandmarkDrawn s) (previousDetectionFinished s) n
    (microtasks s) (frameCallbacks s).

Definition set_microtasks (q : list (option Detection)) (s : State) : State :=
  mkState (modelLoaded s) (videoElement s) (canvasRawElement s)
    (canvasElement s) (size s) (detections s) (mood s)
    (previousLandmarkDrawn s) (previousDetectionFinished s)
    (inFlight s) q (frameCallbacks s).

Definition set_frameCallbacks (n : nat) (s : State) : State :=
  mkState (modelLoaded s) (videoElement s) (canvasRawElement s)
    (canvasElement s) (size s) (detections s) (mood s)
    (previousLandmarkDrawn s) (previousDetectionFinished s)
    (inFlight s) (microtasks s) n.

(** Lines 17-18, the two computed contexts. *)
Definition ctxRaw (s : State) : option CanvasRenderingContext2D :=
  getContext (canvasRawElement s).

Definition ctx (s : State) : option CanvasRenderingContext2D :=
  getContext (canvasElement s).

(** Lines 37-43, the part after the three awaits. *)
Definition loadModel (s : State) : State := set_modelLoaded true s.

Definition requestVideoFrameCallback (s : State) : State :=
  set_frameCallbacks (S (frameCallbacks s)) s.

(** Lines 51-63. *)
Definition handleStream (s : State) : State :=
  match videoElement s, canvasRawElement s, canvasElement s with
  | Some v, Some _, Some _ =>
      set_videoElement (Some (play v)) (requestVideoFrameCallback s)
  | _, _, _ => s
  end.

(** Lines 126-133. *)
Definition resizeCanvas (sz : N * N) (s : State) : State :=
  match canvasElement s, canvasRawElement s with
  | Some c, Some r =>
      set_canvasRawElement
        (Some (set_height (snd sz) (set_width (fst sz) r)))
        (set_canvasElement
           (Some (set_height (snd sz) (set_width (fst sz) c))) s)
  | _, _ => s
  end.

(** Lines 107-124, up to the [await]. *)
Definition detectFaces (s : State) : State :=
  if negb (modelLoaded s) then s else
  match videoElement s with
  | None => s
  | Some v =>
      if paused v || ended v then s else
      if negb (previousDetectionFinished s) then s else
      set_inFlight (S (inFlight s)) s
  end.

(** Lines 120-123, after the [await]. *)
Definition detectFaces_resume (result : option Detection) (s : State) : State :=
  match inFlight s with
  | O => s
  | S n => set_detections result (set_inFlight n s)
  end.

(** Lines 94-99, up to the [await]. *)
Definition addLandmarks (s : State) : State :=
  match canvasElement s with
  | None => s
  | Some _ =>
      if negb (previousLandmarkDrawn s) then s else
      set_microtasks (microtasks s ++ [detections s]) s
  end.

(** Lines 99-103, after the [await]. *)
Definition addLandmarks_resume (awaited : option Detection) (s : State) : State :=
  match awaited_landmarks awaited with
  | Some lm =>
      match canvasElement s with
      | Some c =>
          set_previousLandmarkDrawn true
            (set_canvasElement (Some (drawFaceLandmarks lm c)) s)
      | None => s
      end
  | None => set_previousLandmarkDrawn true s
  end.

(** [`sepia(1) saturate(4) hue-rotate(${mood.value}deg)`] *)
Definition filter_style (m : Z) : string :=
  ("sepia(1) saturate(4) hue-rotate(" ++ template_int m ++ "deg)")%string.

(** Lines 83-91.  The function is [async] but never awaits: it runs to its
    end inside the caller's task. *)
Definition handleImage (s : State) : State :=
  match ctx s, ctxRaw s, canvasElement s with
  | Some _, Some _, Some _ =>
      let s := detectFaces s in
      let s := addLandmarks s in
      match canvasElement s with
      | None => s
      | Some c =>
          set_canvasElement
            (Some (set_style_filter (filter_style (mood s)) c)) s
      end
  | _, _, _ => s
  end.

(** Lines 65-81. *)
Definition frameCallback (metadata_width metadata_height : N) (s : State)
  : State :=
  match ctxRaw s, videoElement s, canvasRawElement s with
  | Some _, Some _, Some _ =>
      let s := set_size (metadata_width, metadata_height) s in
      let s := resizeCanvas (size s) s in
      let s := match canvasRawElement s with
               | None => s
               | Some r => set_canvasRawElement (Some (drawImage r)) s
               end in
      let s := handleImage s in
      requestVideoFrameCallback s
  | _, _, _ => s
  end.

Definition runMicrotasks (s : State) : State :=
  fold_left (fun s awaited => addLandmarks_resume awaited s)
            (microtasks s) (set_microtasks [] s).

Definition env_step (e : EnvEvent) (s : State) : State :=
  match e with
  | BindVideo v => set_videoElement v s
  | BindCanvas c => set_canvasElement c s
  | BindCanvasRaw c => set_canvasRawElement c s
  | BindFilter _ => s
  end.

Definition handler (ev : Event) (s : State) : State :=
  match ev with
  | Env e => env_step e s
  | ModelLoaded => loadModel s
  | StreamReady => handleStream s
  | Frame w h =>
      match frameCallbacks s with
      | O => s
      | S n => frameCallback w h (set_frameCallbacks n s)
      end
  | DetectionDone result => detectFaces_resume result s
  end.

Definition step (s : State) (ev : Event) : State :=
  runMicrotasks (handler ev s).

Definition run (evs : list Event) (s : State) : State :=
  fold_left step evs s.

Definition reachable (s : State) : Prop :=
  exists evs, s = run evs init.

End V1.

(** ** Sample data for the examples *)

Definition entry (label : string) : ExpressionEntry :=
  mkExpressionEntry label (1 # 2).

(** A detection whose ranking starts with [label]. *)
Definition face (label : string) : Detection :=
  mkDetection (Some (mkFaceLandmarks [(10, 20); (30, 40)]))
              (mkFaceExpressions [entry label; entry "fearful"]).

Definition blank_canvas : Canvas := mkCanvas 300 150 true None [] 0.

Definition idle_video : Video := mkVideo true false false.

(** Mount, model and camera ready: the tasks that precede the first frame. *)
Definition startup : list Event :=
  [Env (BindVideo (Some idle_video)); Env (BindCanvas (Some blank_canvas));
   Env (BindCanvasRaw (Some blank_canvas));
   Env (BindFilter (Some (mkFilterElement None)));
   ModelLoaded; StreamReady].

(** ** Derived notions used by the statements *)

(** The three cells no element or engine can reach: the mood and the two
    gate flags. *)
Definition cells2 (s : V2.State) : Z * bool * bool :=
  (V2.mood s, V2.previousLandmarkDrawn s, V2.previousDetectionFinished s).

Definition cells1 (s : V1.State) : Z * bool * bool :=
  (V1.mood s, V1.previousLandmarkDrawn s, V1.previousDetectionFinished s).

(** What the mood machine keeps in fact: multiples of 5 from 0 to 185. *)
Definition mood_ok (m : Z) : Prop := 0 <= m <= 185 /\ (5 | m).

(** A state of the second variant that holds mood [m] and detection [d]. *)
Definition holding (m : Z) (d : option Detection) : V2.State :=
  V2.set_detections d (V2.set_mood m V2.init).

(** Two frames with a detection settled before each: first [l1], then [l2],
    read by the frames that follow. *)
Definition two_moods (l1 l2 : string) : list Event :=
  startup ++ [Frame 640 480; DetectionDone (Some (face l1)); Frame 640 480;
              DetectionDone (Some (face l2))].

(** A state between two tasks of the loop: no [addLandmarks] is suspended
    and its flag is up. *)
Definition settled2 (s : V2.State) : Prop :=
  V2.previousLandmarkDrawn s = true /\ V2.microtasks s = [].

Definition settled1 (s : V1.State) : Prop :=
  V1.previousLandmarkDrawn s = true /\ V1.microtasks s = [].

(** The draw calls [addLandmarks] issues for the value it awaited. *)
Definition drawn_for (d : option Detection) : list FaceLandmarks :=
  match awaited_landmarks d with
  | Some lm => [lm]
  | None => []
  end.

(** A run of frames, given by their reported sizes. *)
Definition frames (sizes : list (N * N)) : list Event :=
  map (fun sz => Frame (fst sz) (snd sz)) sizes.

Definition is_stream (ev : Event) : bool :=
  match ev with
  | StreamReady => true
  | _ => false
  end.

(** How many times the camera stream was delivered along a run. *)
Definition streams (evs : list Event) : nat :=
  length (filter is_stream evs).

(** The label a settled detection ranks first, if it ranks any. *)
Definition first_label (r : option Detection) : option string :=
  match r with
  | None => None
  | Some d => top_expression d
  end.

(** The engine never answers with 'neutral' ranked first. *)
Definition never_neutral (ev : Event) : Prop :=
  match ev with
  | DetectionDone r => first_label r <> Some "neutral"%string
  | _ => True
  end.

(** ** Facts on the second variant *)

Section V2_cells.

Local Ltac by_cases f :=
  intros; unfold f;
  repeat match goal with
         | |- context [match ?x with _ => _ end] => destruct x
         end; reflexivity.

Lemma cells2_resizeCanvas sz s : cells2 (V2.resizeCanvas sz s) = cells2 s.
Proof. by_cases V2.resizeCanvas. Qed.

Lemma cells2_detectFaces s : cells2 (V2.detectFaces s) = cells2 s.
Proof. by_cases V2.detectFaces. Qed.

Lemma cells2_addLandmarks s : cells2 (V2.addLandmarks s) = cells2 s.
Proof. by_cases V2.addLandmarks. Qed.

Lemma cells2_assign_filter s : cells2 (V2.assign_filter s) = cells2 s.
Proof. by_cases V2.assign_filter. Qed.

Lemma cells2_handleStream s : cells2 (V2.handleStream s) = cells2 s.
Proof. by_cases V2.handleStream. Qed.

Lemma cells2_detectFaces_resume r s :
  cells2 (V2.detectFaces_resume r s) = cells2 s.
Proof. by_cases V2.detectFaces_resume. Qed.

Lemma cells2_env_step e s : cells2 (V2.env_step e s) = cells2 s.
Proof. by_cases V2.env_step. Qed.

(** The rest of [addLandmarks] leaves the mood and the detection flag, and
    can only write [true] to its own flag. *)
Lemma cells2_addLandmarks_resume a s :
  V2.previousLandmarkDrawn s = true ->
  cells2 (V2.addLandmarks_resume a s) = cells2 s.
Proof.
  intros H. unfold V2.addLandmarks_resume, cells2.
  destruct (awaited_landmarks a); [destruct (V2.canvasElement s)|];
    simpl; rewrite ?H; reflexivity.
Qed.

Lemma cells2_drain q : forall s,
  V2.previousLandmarkDrawn s = true ->
  cells2 (fold_left (fun s a => V2.addLandmarks_resume a s) q s) = cells2 s.
Proof.
  induction q as [|a q IH]; intros s H; simpl; [reflexivity|].
  pose proof (cells2_addLandmarks_resume a s H) as E.
  rewrite IH; [exact E|].
  unfold cells2 in E. injection E as _ E _. now rewrite E.
Qed.

Lemma cells2_runMicrotasks s :
  V2.previousLandmarkDrawn s = true ->
  cells2 (V2.runMicrotasks s) = cells2 s.
Proof.
  intros H. unfold V2.runMicrotasks. now rewrite cells2_drain.
Qed.

(** [updateMood] as a function of the stored detection and the mood. *)
Lemma updateMood_no_detection s :
  V2.detections s = None -> V2.updateMood s = s.
Proof. intros H. unfold V2.updateMood. now rewrite H. Qed.

Lemma updateMood_no_expression s d :
  V2.detections s = Some d -> top_expression d = None -> V2.updateMood s = s.
Proof.
  intros H T. unfold V2.updateMood. rewrite H.
  unfold top_expression in T. now destruct (asSortedArray (expressions d)).
Qed.

Lemma updateMood_mood s d label :
  V2.detections s = Some d -> top_expression d = Some label ->
  V2.mood (V2.updateMood s) = V2.mood_transition label (V2.mood s).
Proof.
  intros H T. unfold V2.updateMood, V2.mood_transition. rewrite H.
  unfold top_expression in T.
  destruct (asSortedArray (expressions d)) as [|e rest]; [discriminate|].
  injection T as <-.
  repeat match goal with
         | |- context [(?a =? ?b)%string] => destruct (a =? b)%string
         | |- context [match V2.filterElement ?x with _ => _ end] =>
             destruct (V2.filterElement x)
         end; reflexivity.
Qed.

Lemma updateMood_flags s :
  V2.previousLandmarkDrawn (V2.updateMood s) = V2.previousLandmarkDrawn s /\
  V2.previousDetectionFinished (V2.updateMood s)
    = V2.previousDetectionFinished s.
Proof.
  unfold V2.updateMood.
  destruct (V2.detections s) as [d|]; [|now split].
  destruct (asSortedArray (expressions d)) as [|e rest]; [now split|].
  repeat match goal with
         | |- context [(?a =? ?b)%string] => destruct (a =? b)%string
         | |- context [match V2.filterElement ?x with _ => _ end] =>
             destruct (V2.filterElement x)
         end; now split.
Qed.

End V2_cells.

Section V2_traces.

Local Ltac by_cases f :=
  intros; unfold f;
  repeat match goal with
         | |- context [match ?x with _ => _ end] => destruct x
         end; reflexivity.

Lemma detections_resizeCanvas sz s :
  V2.detections (V2.resizeCanvas sz s) = V2.detections s.
Proof. by_cases V2.resizeCanvas. Qed.

Lemma detections_detectFaces s :
  V2.detections (V2.detectFaces s) = V2.detections s.
Proof. by_cases V2.detectFaces. Qed.

Lemma detections_addLandmarks s :
  V2.detections (V2.addLandmarks s) = V2.detections s.
Proof. by_cases V2.addLandmarks. Qed.

(** The state [updateMood] runs on inside a frame holds the mood, the flags
    and the detection the frame started with. *)
Lemma before_updateMood sz s :
  let s1 := V2.addLandmarks (V2.detectFaces
              (V2.resizeCanvas sz (V2.set_size sz s))) in
  cells2 s1 = cells2 s /\ V2.detections s1 = V2.detections s.
Proof.
  simpl. split.
  - now rewrite cells2_addLandmarks, cells2_detectFaces, cells2_resizeCanvas.
  - now rewrite detections_addLandmarks, detections_detectFaces,
      detections_resizeCanvas.
Qed.

Lemma frameCallback_flags w h s :
  V2.previousLandmarkDrawn (V2.frameCallback w h s)
    = V2.previousLandmarkDrawn s /\
  V2.previousDetectionFinished (V2.frameCallback w h s)
    = V2.previousDetectionFinished s.
Proof.
  unfold V2.frameCallback.
  destruct (V2.ctx s); [|now split].
  destruct (V2.videoElement s); [|now split].
  destruct (V2.canvasElement s); [|now split].
  cbv zeta. cbn [V2.size V2.set_size].
  destruct (before_updateMood (w, h) s) as [E _].
  set (s1 := V2.addLandmarks _) in *.
  pose proof (cells2_assign_filter (V2.updateMood s1)) as F.
  destruct (updateMood_flags s1) as [U1 U2].
  unfold cells2 in E, F. injection E as _ E1 E2. injection F as _ F1 F2.
  unfold V2.requestVideoFrameCallback. cbn.
  rewrite F1, F2, U1, U2, E1, E2. now split.
Qed.

(** A frame either leaves the mood, or applies the transition of the label
    ranked first in the stored detection. *)
Lemma frameCallback_mood w h s :
  V2.mood (V2.frameCallback w h s) = V2.mood s \/
  exists d label,
    V2.detections s = Some d /\ top_expression d = Some label /\
    V2.mood (V2.frameCallback w h s)
      = V2.mood_transition label (V2.mood s).
Proof.
  unfold V2.frameCallback.
  destruct (V2.ctx s); [|now left].
  destruct (V2.videoElement s); [|now left].
  destruct (V2.canvasElement s); [|now left].
  cbv zeta. cbn [V2.size V2.set_size].
  destruct (before_updateMood (w, h) s) as [E D].
  set (s1 := V2.addLandmarks _) in *.
  pose proof (cells2_assign_filter (V2.updateMood s1)) as F.
  unfold cells2 in E, F. injection E as E _ _. injection F as F _ _.
  assert (M : V2.mood (V2.requestVideoFrameCallback
                        (V2.assign_filter (V2.updateMood s1)))
              = V2.mood (V2.updateMood s1)) by (cbn; exact F).
  rewrite M.
  destruct (V2.detections s) as [d|] eqn:Hd.
  - destruct (top_expression d) as [label|] eqn:Ht.
    + right. exists d, label. split; [reflexivity|]. split; [exact Ht|].
      rewrite (updateMood_mood s1 d label D Ht). now rewrite E.
    + left. rewrite (updateMood_no_expression s1 d D Ht). exact E.
  - left. rewrite (updateMood_no_detection s1 D). exact E.
Qed.

Lemma mood_transition_ok label m :
  mood_ok m -> mood_ok (V2.mood_transition label m).
Proof.
  intros [B [k ->]]. unfold V2.mood_transition, mood_ok.
  repeat match goal with
         | |- context [(?a =? ?b)%string] => destruct (a =? b)%string
         end;
    try (split; [lia | exists 0; lia]);
    try (split; [lia | exists k; lia]).
  - destruct (Z.ltb_spec (k * 5) 180).
    + split; [lia | exists (k + 2); lia].
    + split; [lia | exists 36; lia].
  - destruct (k * 5 >? 0) eqn:G.
    + apply Z.gtb_lt in G. split; [lia | exists (k - 1); lia].
    + split; [lia | exists 0; lia].
Qed.

(** The invariant of the second variant: both flags up, mood on the grid. *)
Lemma step2_invariant s ev :
  V2.previousLandmarkDrawn s = true ->
  V2.previousDetectionFinished s = true ->
  mood_ok (V2.mood s) ->
  V2.previousLandmarkDrawn (V2.step s ev) = true /\
  V2.previousDetectionFinished (V2.step s ev) = true /\
  mood_ok (V2.mood (V2.step s ev)).
Proof.
  intros L D M. unfold V2.step.
  assert (K : V2.previousLandmarkDrawn (V2.handler ev s) = true /\
              V2.previousDetectionFinished (V2.handler ev s) = true /\
              mood_ok (V2.mood (V2.handler ev s))).
  { destruct ev as [e| | |w h|r]; cbn [V2.handler].
    - pose proof (cells2_env_step e s) as E. unfold cells2 in E.
      injection E as -> -> ->. auto.
    - cbn. auto.
    - pose proof (cells2_handleStream s) as E. unfold cells2 in E.
      injection E as -> -> ->. auto.
    - destruct (V2.frameCallbacks s) as [|n]; [auto|].
      set (s0 := V2.set_frameCallbacks n s).
      destruct (frameCallback_flags w h s0) as [-> ->].
      destruct (frameCallback_mood w h s0) as [->|(d & l & _ & _ & ->)];
        cbn; auto using mood_transition_ok.
    - pose proof (cells2_detectFaces_resume r s) as E. unfold cells2 in E.
      injection E as -> -> ->. auto. }
  destruct K as (L' & D' & M').
  pose proof (cells2_runMicrotasks _ L') as E. unfold cells2 in E.
  injection E as -> -> ->. auto.
Qed.

Lemma run2_snoc evs ev s :
  V2.run (evs ++ [ev]) s = V2.step (V2.run evs s) ev.
Proof. unfold V2.run. now rewrite fold_left_app. Qed.

Lemma run2_invariant evs :
  V2.previousLandmarkDrawn (V2.run evs V2.init) = true /\
  V2.previousDetectionFinished (V2.run evs V2.init) = true /\
  mood_ok (V2.mood (V2.run evs V2.init)).
Proof.
  induction evs as [|ev evs IH] using rev_ind.
  - cbn. repeat split; try lia. exists 36. lia.
  - rewrite run2_snoc. destruct IH as (L & D & M).
    now apply step2_invariant.
Qed.

End V2_traces.

(** ** Facts on the first variant *)

Section V1_traces.

Local Ltac by_cases f :=
  intros; unfold f;
  repeat match goal with
         | |- context [match ?x with _ => _ end] => destruct x
         end; reflexivity.

Lemma cells1_resizeCanvas sz s : cells1 (V1.resizeCanvas sz s) = cells1 s.
Proof. by_cases V1.resizeCanvas. Qed.

Lemma cells1_detectFaces s : cells1 (V1.detectFaces s) = cells1 s.
Proof. by_cases V1.detectFaces. Qed.

Lemma cells1_addLandmarks s : cells1 (V1.addLandmarks s) = cells1 s.
Proof. by_cases V1.addLandmarks. Qed.

Lemma cells1_handleStream s : cells1 (V1.handleStream s) = cells1 s.
Proof. by_cases V1.handleStream. Qed.

Lemma cells1_detectFaces_resume r s :
  cells1 (V1.detectFaces_resume r s) = cells1 s.
Proof. by_cases V1.detectFaces_resume. Qed.

Lemma cells1_env_step e s : cells1 (V1.env_step e s) = cells1 s.
Proof. by_cases V1.env_step. Qed.

Lemma cells1_handleImage s : cells1 (V1.handleImage s) = cells1 s.
Proof.
  unfold V1.handleImage.
  destruct (V1.ctx s); [|reflexivity].
  destruct (V1.ctxRaw s); [|reflexivity].
  destruct (V1.canvasElement s); [|reflexivity].
  cbv zeta.
  destruct (V1.canvasElement (V1.addLandmarks (V1.detectFaces s)));
    [change (cells1 (V1.set_canvasElement ?c ?x)) with (cells1 x)|];
    now rewrite cells1_addLandmarks, cells1_detectFaces.
Qed.

Lemma cells1_frameCallback w h s : cells1 (V1.frameCallback w h s) = cells1 s.
Proof.
  unfold V1.frameCallback.
  destruct (V1.ctxRaw s); [|reflexivity].
  destruct (V1.videoElement s); [|reflexivity].
  destruct (V1.canvasRawElement s); [|reflexivity].
  cbv zeta. cbn [V1.size V1.set_size].
  change (cells1 (V1.requestVideoFrameCallback ?x)) with (cells1 x).
  rewrite cells1_handleImage.
  set (s1 := V1.resizeCanvas _ _).
  assert (E : cells1 s1 = cells1 s)
    by (unfold s1; now rewrite cells1_resizeCanvas).
  destruct (V1.canvasRawElement s1); exact E.
Qed.

Lemma cells1_handler ev s : cells1 (V1.handler ev s) = cells1 s.
Proof.
  destruct ev as [e| | |w h|r]; cbn [V1.handler].
  - apply cells1_env_step.
  - reflexivity.
  - apply cells1_handleStream.
  - destruct (V1.frameCallbacks s); [reflexivity|].
    now rewrite cells1_frameCallback.
  - apply cells1_detectFaces_resume.
Qed.

Lemma cells1_addLandmarks_resume a s :
  V1.previousLandmarkDrawn s = true ->
  cells1 (V1.addLandmarks_resume a s) = cells1 s.
Proof.
  intros H. unfold V1.addLandmarks_resume, cells1.
  destruct (awaited_landmarks a); [destruct (V1.canvasElement s)|];
    simpl; rewrite ?H; reflexivity.
Qed.

Lemma cells1_drain q : forall s,
  V1.previousLandmarkDrawn s = true ->
  cells1 (fold_left (fun s a => V1.addLandmarks_resume a s) q s) = cells1 s.
Proof.
  induction q as [|a q IH]; intros s H; simpl; [reflexivity|].
  pose proof (cells1_addLandmarks_resume a s H) as E.
  rewrite IH; [exact E|].
  unfold cells1 in E. injection E as _ E _. now rewrite E.
Qed.

Lemma cells1_step s ev :
  V1.previousLandmarkDrawn s = true -> cells1 (V1.step s ev) = cells1 s.
Proof.
  intros H. unfold V1.step, V1.runMicrotasks.
  pose proof (cells1_handler ev s) as E.
  rewrite cells1_drain; [exact E|].
  unfold cells1 in E. injection E as _ E _. cbn. now rewrite E.
Qed.

Lemma run1_snoc evs ev s :
  V1.run (evs ++ [ev]) s = V1.step (V1.run evs s) ev.
Proof. unfold V1.run. now rewrite fold_left_app. Qed.

(** No task of the first variant writes the mood or a flag. *)
Lemma run1_cells evs : cells1 (V1.run evs V1.init) = (0, true, true).
Proof.
  induction evs as [|ev evs IH] using rev_ind; [reflexivity|].
  rewrite run1_snoc, cells1_step; [exact IH|].
  unfold cells1 in IH. now injection IH as _ -> _.
Qed.

End V1_traces.

(** ** The mood machine, label by label *)

Section Mood_machine.

Lemma mood_addLandmarks_resume a s :
  V2.mood (V2.addLandmarks_resume a s) = V2.mood s.
Proof.
  unfold V2.addLandmarks_resume.
  destruct (awaited_landmarks a); [destruct (V2.canvasElement s)|];
    reflexivity.
Qed.

Lemma mood_drain q : forall s,
  V2.mood (fold_left (fun s a => V2.addLandmarks_resume a s) q s) = V2.mood s.
Proof.
  induction q as [|a q IH]; intros s; simpl; [reflexivity|].
  now rewrite IH, mood_addLandmarks_resume.
Qed.

(** Only a frame moves the mood, and it moves it by [updateMood]: by the
    transition of the label ranked first in the stored detection. *)
Lemma mood_written_by_updateMood_only s ev :
  V2.mood (V2.step s ev) = V2.mood s \/
  exists w h d label,
    ev = Frame w h /\ V2.detections s = Some d /\
    top_expression d = Some label /\
    V2.mood (V2.step s ev) = V2.mood_transition label (V2.mood s).
Proof.
  unfold V2.step, V2.runMicrotasks. rewrite mood_drain.
  change (V2.mood (V2.set_microtasks [] ?x)) with (V2.mood x).
  destruct ev as [e| | |w h|r]; cbn [V2.handler].
  - left. pose proof (cells2_env_step e s) as E. now injection E.
  - now left.
  - left. pose proof (cells2_handleStream s) as E. now injection E.
  - destruct (V2.frameCallbacks s) as [|n]; [now left|].
    destruct (frameCallback_mood w h (V2.set_frameCallbacks n s))
      as [E|(d & l & D & T & E)].
    + left. exact E.
    + right. exists w, h, d, l. auto.
  - left. pose proof (cells2_detectFaces_resume r s) as E. now injection E.
Qed.

(** The 'happy' transition below the last step and at the maximum. *)
Lemma updateMood_happy_in_step s d :
  V2.detections s = Some d -> top_expression d = Some "happy"%string ->
  V2.mood s <= 170 \/ V2.mood s = 180 ->
  V2.mood (V2.updateMood s) = Z.min (V2.mood s + 10) 180.
Proof.
  intros D T R. rewrite (updateMood_mood s d _ D T).
  unfold V2.mood_transition. cbn.
  destruct (Z.ltb_spec (V2.mood s) 180); lia.
Qed.

(** Every reachable mood is a multiple of 5 between 0 and 185. *)
Lemma reachable_mood_ok s : V2.reachable s -> mood_ok (V2.mood s).
Proof. intros [evs ->]. apply run2_invariant. Qed.

(** C1 (defect): the 'happy' transition tests [mood < 180] before it adds
    the step of 10, so from the reachable mood 175 (the initial 180 after
    one 'neutral' frame) it yields 185, not min(175 + 10, 180) = 180. *)
Theorem C1_happy_overshoots_max :
  let s := V2.run (two_moods "neutral" "happy") V2.init in
  0 <= V2.mood s <= 180 /\
  V2.mood s = 175 /\
  V2.detections s = Some (face "happy") /\
  top_expression (face "happy") = Some "happy"%string /\
  V2.mood (V2.updateMood s) = 185 /\
  V2.mood (V2.updateMood s) <> Z.min (V2.mood s + 10) 180.
Proof.
  cbv zeta.
  assert (M : V2.mood (V2.run (two_moods "neutral" "happy") V2.init) = 175)
    by (vm_compute; reflexivity).
  assert (U : V2.mood (V2.updateMood
                (V2.run (two_moods "neutral" "happy") V2.init)) = 185)
    by (vm_compute; reflexivity).
  rewrite U, M.
  repeat split; try lia; vm_compute; reflexivity.
Qed.

(** C2 (defect): the mood does not stay in [0, 180]: from the initial 180,
    a frame that reads 'neutral' and then a frame that reads 'happy' leave
    the mood at 185, in a reachable state. *)
Theorem C2_mood_leaves_range :
  let evs := two_moods "neutral" "happy" ++ [Frame 640 480] in
  V2.mood V2.init = 180 /\
  V2.reachable (V2.run evs V2.init) /\
  V2.mood (V2.run evs V2.init) = 185 /\
  ~ (forall s, V2.reachable s -> 0 <= V2.mood s <= 180).
Proof.
  cbv zeta. split; [reflexivity|].
  split; [eexists; reflexivity|].
  assert (E : V2.mood (V2.run (two_moods "neutral" "happy" ++ [Frame 640 480])
                         V2.init) = 185) by (vm_compute; reflexivity).
  split; [exact E|].
  intros H.
  specialize (H _ (ex_intro _ (two_moods "neutral" "happy" ++ [Frame 640 480])
                     eq_refl)).
  rewrite E in H. lia.
Qed.

(** The 'neutral' transition away from the integers 1 to 4, which the
    test [mood > 0] of line 272 would send below 0. *)
Lemma updateMood_neutral_off_gap s d :
  V2.mood s <= 0 \/ 5 <= V2.mood s ->
  V2.detections s = Some d ->
  top_expression d = Some "neutral"%string ->
  V2.mood (V2.updateMood s) = Z.max (V2.mood s - 5) 0.
Proof.
  intros G D T. rewrite (updateMood_mood s d _ D T).
  unfold V2.mood_transition. cbn.
  destruct (Z.gtb_spec (V2.mood s) 0); lia.
Qed.

(** C4: for every mood m in [0, 180] the hook can hold, a frame whose
    first-ranked label is 'neutral' yields max(m - 5, 0); in particular at
    0 the mood stays 0.  The mood is private to the hook, so the moods it
    can hold are those of the reachable states. *)
Theorem C4_neutral_transition s d :
  V2.reachable s ->
  0 <= V2.mood s <= 180 ->
  V2.detections s = Some d ->
  top_expression d = Some "neutral"%string ->
  V2.mood (V2.updateMood s) = Z.max (V2.mood s - 5) 0 /\
  (V2.mood s = 0 -> V2.mood (V2.updateMood s) = 0).
Proof.
  intros R B D T.
  destruct (reachable_mood_ok s R) as [_ [k K]].
  assert (E : V2.mood (V2.updateMood s) = Z.max (V2.mood s - 5) 0)
    by (apply (updateMood_neutral_off_gap s d); [lia | exact D | exact T]).
  split; [exact E|]. intros Z0. rewrite E, Z0. reflexivity.
Qed.

Lemma C4_neutral_transition_witness :
  let s := V2.run (two_moods "sad" "neutral") V2.init in
  let s' := V2.run (startup ++ [Frame 640 480;
                                DetectionDone (Some (face "neutral"))])
              V2.init in
  (V2.reachable s /\
   0 <= V2.mood s <= 180 /\
   V2.detections s = Some (face "neutral") /\
   top_expression (face "neutral") = Some "neutral"%string /\
   V2.mood s = 0 /\
   V2.mood (V2.updateMood s) = Z.max (V2.mood s - 5) 0 /\
   (V2.mood s = 0 -> V2.mood (V2.updateMood s) = 0)) /\
  (V2.reachable s' /\
   0 <= V2.mood s' <= 180 /\
   V2.detections s' = Some (face "neutral") /\
   V2.mood s' = 180 /\
   V2.mood (V2.updateMood s') = Z.max (V2.mood s' - 5) 0 /\
   (V2.mood s' = 0 -> V2.mood (V2.updateMood s') = 0)).
Proof.
  cbv zeta. split.
  - assert (R : V2.reachable (V2.run (two_moods "sad" "neutral") V2.init))
      by (eexists; reflexivity).
    assert (M : V2.mood (V2.run (two_moods "sad" "neutral") V2.init) = 0)
      by (vm_compute; reflexivity).
    assert (B : 0 <= V2.mood (V2.run (two_moods "sad" "neutral") V2.init)
                <= 180) by (rewrite M; lia).
    assert (D : V2.detections (V2.run (two_moods "sad" "neutral") V2.init)
                = Some (face "neutral")) by (vm_compute; reflexivity).
    split; [exact R|]. split; [exact B|]. split; [exact D|].
    split; [reflexivity|]. split; [exact M|].
    exact (C4_neutral_transition _ _ R B D eq_refl).
  - assert (R : V2.reachable
                  (V2.run (startup ++ [Frame 640 480;
                                       DetectionDone (Some (face "neutral"))])
                     V2.init)) by (eexists; reflexivity).
    assert (M : V2.mood
                  (V2.run (startup ++ [Frame 640 480;
                                       DetectionDone (Some (face "neutral"))])
                     V2.init) = 180) by (vm_compute; reflexivity).
    assert (B : 0 <= V2.mood
                       (V2.run (startup ++
                                  [Frame 640 480;
                                   DetectionDone (Some (face "neutral"))])
                          V2.init) <= 180) by (rewrite M; lia).
    assert (D : V2.detections
                  (V2.run (startup ++ [Frame 640 480;
                                       DetectionDone (Some (face "neutral"))])
                     V2.init) = Some (face "neutral"))
      by (vm_compute; reflexivity).
    split; [exact R|]. split; [exact B|]. split; [exact D|].
    split; [exact M|].
    exact (C4_neutral_transition _ _ R B D eq_refl).
Defined.

(** C5: whatever the mood, a frame whose first-ranked label is 'sad' or
    'angry' sets the mood to 0. *)
Theorem C5_sad_angry_reset s d label :
  V2.detections s = Some d ->
  top_expression d = Some label ->
  label = "sad"%string \/ label = "angry"%string ->
  V2.mood (V2.updateMood s) = 0.
Proof.
  intros D T L. rewrite (updateMood_mood s d _ D T).
  destruct L as [-> | ->]; reflexivity.
Qed.

Lemma C5_sad_angry_reset_witness :
  let s := holding 125 (Some (face "angry")) in
  V2.detections s = Some (face "angry") /\
  top_expression (face "angry") = Some "angry"%string /\
  ("angry" = "sad" \/ "angry" = "angry")%string /\
  V2.mood (V2.updateMood s) = 0.
Proof.
  cbv zeta.
  split; [reflexivity|]. split; [reflexivity|].
  split; [right; reflexivity|].
  exact (C5_sad_angry_reset (holding 125 (Some (face "angry")))
           (face "angry") "angry" eq_refl eq_refl (or_intror eq_refl)).
Defined.

(** C7: a first-ranked label other than 'happy', 'neutral', 'sad' and
    'angry' leaves the mood as it is and is written to the console; and
    without a stored detection [updateMood] changes nothing at all. *)
Theorem C7_unrecognized_label_keeps_mood :
  (forall s d label,
     V2.detections s = Some d ->
     top_expression d = Some label ->
     label <> "happy"%string -> label <> "neutral"%string ->
     label <> "sad"%string -> label <> "angry"%string ->
     V2.mood (V2.updateMood s) = V2.mood s /\
     V2.console (V2.updateMood s) = V2.console s ++ [label]) /\
  (forall s, V2.detections s = None -> V2.updateMood s = s).
Proof.
  split; [|exact updateMood_no_detection].
  intros s d label D T Hh Hn Hs Ha.
  apply String.eqb_neq in Hh, Hn, Hs, Ha.
  split.
  - rewrite (updateMood_mood s d _ D T). unfold V2.mood_transition.
    now rewrite Hh, Hn, Hs, Ha.
  - unfold V2.updateMood. rewrite D. unfold top_expression in T.
    destruct (asSortedArray (expressions d)) as [|e rest]; [discriminate|].
    injection T as ->. rewrite Hh, Hn, Hs, Ha.
    destruct (V2.filterElement (V2.console_log label s)); reflexivity.
Qed.

Lemma C7_unrecognized_label_keeps_mood_witness :
  let s := holding 0 (Some (face "surprised")) in
  (V2.detections s = Some (face "surprised") /\
   top_expression (face "surprised") = Some "surprised"%string /\
   V2.mood (V2.updateMood s) = V2.mood s /\
   V2.console (V2.updateMood s) = V2.console s ++ ["surprised"%string]) /\
  (V2.detections V2.init = None /\ V2.updateMood V2.init = V2.init).
Proof.
  cbv zeta. split.
  - split; [reflexivity|]. split; [reflexivity|].
    apply (proj1 C7_unrecognized_label_keeps_mood
             (holding 0 (Some (face "surprised"))) (face "surprised")
             "surprised"%string eq_refl eq_refl);
      intros K; discriminate K.
  - split; [reflexivity|].
    exact (proj2 C7_unrecognized_label_keeps_mood V2.init eq_refl).
Defined.

End Mood_machine.

(** ** The two gates *)

Section Gates.

Lemma microtasks_addLandmarks_resume a s :
  V2.microtasks (V2.addLandmarks_resume a s) = V2.microtasks s.
Proof.
  unfold V2.addLandmarks_resume.
  destruct (awaited_landmarks a); [destruct (V2.canvasElement s)|];
    reflexivity.
Qed.

Lemma microtasks_drain q : forall s,
  V2.microtasks (fold_left (fun s a => V2.addLandmarks_resume a s) q s)
    = V2.microtasks s.
Proof.
  induction q as [|a q IH]; intros s; simpl; [reflexivity|].
  now rewrite IH, microtasks_addLandmarks_resume.
Qed.

(** The checkpoint at the end of a task leaves no [addLandmarks] suspended. *)
Lemma microtasks_run evs : V2.microtasks (V2.run evs V2.init) = [].
Proof.
  destruct evs as [|ev evs _] using rev_ind; [reflexivity|].
  rewrite run2_snoc. unfold V2.step, V2.runMicrotasks.
  now rewrite microtasks_drain.
Qed.

(** C3 (defect): [detectFaces] never lowers [previousDetectionFinished],
    so its fourth guard never fires.  With the model loaded and the video
    playing, a frame starts a detection, and the next frame, delivered
    before that detection settles, starts a second one: two detections are
    in flight, in both variants. *)
Theorem C3_second_detection_starts_in_flight :
  let s2 := V2.run (startup ++ [Frame 640 480]) V2.init in
  let s1 := V1.run (startup ++ [Frame 640 480]) V1.init in
  (V2.inFlight s2 = 1%nat /\
   V2.previousDetectionFinished s2 = true /\
   V2.inFlight (V2.detectFaces s2) = 2%nat /\
   V2.inFlight (V2.step s2 (Frame 640 480)) = 2%nat) /\
  (V1.inFlight s1 = 1%nat /\
   V1.previousDetectionFinished s1 = true /\
   V1.inFlight (V1.detectFaces s1) = 2%nat /\
   V1.inFlight (V1.step s1 (Frame 640 480)) = 2%nat).
Proof.
  cbv zeta. repeat split; vm_compute; reflexivity.
Qed.

(** C6: with its flag down [addLandmarks] does nothing; once it has passed
    its guards, the rest of the function raises the flag whether or not the
    awaited detection carries landmarks, and draws them only if it does;
    and no call is left suspended between two tasks. *)
Theorem C6_landmark_gate :
  (forall s, V2.previousLandmarkDrawn s = false -> V2.addLandmarks s = s) /\
  (forall s c awaited,
     V2.canvasElement s = Some c ->
     V2.previousLandmarkDrawn (V2.addLandmarks_resume awaited s) = true /\
     V2.canvasElement (V2.addLandmarks_resume awaited s)
       = Some (match awaited_landmarks awaited with
               | Some lm => drawFaceLandmarks lm c
               | None => c
               end)) /\
  (forall s c,
     V2.canvasElement s = Some c ->
     V2.previousLandmarkDrawn s = true ->
     V2.microtasks s = [] ->
     V2.previousLandmarkDrawn (V2.runMicrotasks (V2.addLandmarks s)) = true /\
     V2.microtasks (V2.runMicrotasks (V2.addLandmarks s)) = [] /\
     V2.canvasElement (V2.runMicrotasks (V2.addLandmarks s))
       = Some (match awaited_landmarks (V2.detections s) with
               | Some lm => drawFaceLandmarks lm c
               | None => c
               end)) /\
  (forall evs, V2.microtasks (V2.run evs V2.init) = []).
Proof.
  split; [|split; [|split]].
  - intros s H. unfold V2.addLandmarks. rewrite H.
    now destruct (V2.canvasElement s).
  - intros s c awaited C. unfold V2.addLandmarks_resume. rewrite C.
    destruct (awaited_landmarks awaited); cbn; auto.
  - intros s c C F Q.
    unfold V2.addLandmarks. rewrite C, F. cbn [negb].
    unfold V2.runMicrotasks. cbn [V2.microtasks V2.set_microtasks].
    rewrite Q. cbn [app fold_left].
    unfold V2.addLandmarks_resume. cbn [V2.canvasElement V2.set_microtasks].
    rewrite C.
    destruct (awaited_landmarks (V2.detections s)); cbn; auto.
  - exact microtasks_run.
Qed.

Lemma C6_landmark_gate_witness :
  let busy := V2.set_previousLandmarkDrawn false V2.init in
  let s := V2.run (startup ++ [Frame 640 480]) V2.init in
  let c := mkCanvas 640 480 true (Some "hue-rotate(180deg)"%string) [] 0 in
  (V2.previousLandmarkDrawn busy = false /\ V2.addLandmarks busy = busy) /\
  (V2.canvasElement s = Some c /\
   V2.previousLandmarkDrawn s = true /\
   V2.microtasks s = [] /\
   V2.previousLandmarkDrawn (V2.runMicrotasks (V2.addLandmarks s)) = true /\
   V2.microtasks (V2.runMicrotasks (V2.addLandmarks s)) = [] /\
   V2.canvasElement (V2.runMicrotasks (V2.addLandmarks s))
     = Some (match awaited_landmarks (V2.detections s) with
             | Some lm => drawFaceLandmarks lm c
             | None => c
             end)).
Proof.
  cbv zeta. split.
  - split; [reflexivity|].
    exact (proj1 C6_landmark_gate
             (V2.set_previousLandmarkDrawn false V2.init) eq_refl).
  - assert (C : V2.canvasElement (V2.run (startup ++ [Frame 640 480]) V2.init)
                = Some (mkCanvas 640 480 true
                          (Some "hue-rotate(180deg)"%string) [] 0))
      by (vm_compute; reflexivity).
    assert (F : V2.previousLandmarkDrawn
                  (V2.run (startup ++ [Frame 640 480]) V2.init) = true)
      by (vm_compute; reflexivity).
    assert (Q : V2.microtasks (V2.run (startup ++ [Frame 640 480]) V2.init)
                = []) by (vm_compute; reflexivity).
    split; [exact C|]. split; [exact F|]. split; [exact Q|].
    exact (proj1 (proj2 (proj2 C6_landmark_gate)) _ _ C F Q).
Defined.

End Gates.

(** ** The canvas sizer and the flags along a run *)

Section Sizer_and_flags.

(** C8: after [resizeCanvas] with a reported pair, the pixel size of the
    drawing surface is that pair (of both surfaces in the first variant),
    whatever it was before, so after each of two calls it is the latest
    pair; with a surface missing the call changes nothing. *)
Theorem C8_canvas_follows_frame_size :
  (forall s c w h,
     V2.canvasElement s = Some c ->
     exists c',
       V2.canvasElement (V2.resizeCanvas (w, h) s) = Some c' /\
       width c' = w /\ height c' = h) /\
  (forall s sz, V2.canvasElement s = None -> V2.resizeCanvas sz s = s) /\
  (forall s c r w h,
     V1.canvasElement s = Some c ->
     V1.canvasRawElement s = Some r ->
     exists c' r',
       V1.canvasElement (V1.resizeCanvas (w, h) s) = Some c' /\
       V1.canvasRawElement (V1.resizeCanvas (w, h) s) = Some r' /\
       width c' = w /\ height c' = h /\ width r' = w /\ height r' = h) /\
  (forall s sz,
     V1.canvasElement s = None \/ V1.canvasRawElement s = None ->
     V1.resizeCanvas sz s = s).
Proof.
  split; [|split; [|split]].
  - intros s c w h C. unfold V2.resizeCanvas. rewrite C.
    eexists. cbn. repeat split.
  - intros s sz C. unfold V2.resizeCanvas. now rewrite C.
  - intros s c r w h C R. unfold V1.resizeCanvas. rewrite C, R.
    do 2 eexists. cbn. repeat split.
  - intros s sz [C|R]; unfold V1.resizeCanvas.
    + now rewrite C.
    + rewrite R. now destruct (V1.canvasElement s).
Qed.

Lemma C8_canvas_follows_frame_size_witness :
  let s0 := V2.set_canvasElement (Some blank_canvas) V2.init in
  let s1 := V2.resizeCanvas (640%N, 480%N) s0 in
  (V2.canvasElement s0 = Some blank_canvas /\
   exists c',
     V2.canvasElement s1 = Some c' /\
     width c' = 640%N /\ height c' = 480%N) /\
  (V2.canvasElement s1 = Some (mkCanvas 640 480 true None [] 0) /\
   exists c',
     V2.canvasElement (V2.resizeCanvas (1280%N, 720%N) s1) = Some c' /\
     width c' = 1280%N /\ height c' = 720%N) /\
  (V2.canvasElement V2.init = None /\
   V2.resizeCanvas (640%N, 480%N) V2.init = V2.init).
Proof.
  cbv zeta. split; [|split].
  - split; [reflexivity|].
    exact (proj1 C8_canvas_follows_frame_size
             (V2.set_canvasElement (Some blank_canvas) V2.init)
             blank_canvas 640%N 480%N eq_refl).
  - split; [reflexivity|].
    exact (proj1 C8_canvas_follows_frame_size
             (V2.resizeCanvas (640%N, 480%N)
                (V2.set_canvasElement (Some blank_canvas) V2.init))
             (mkCanvas 640 480 true None [] 0) 1280%N 720%N eq_refl).
  - split; [reflexivity|].
    exact (proj1 (proj2 C8_canvas_follows_frame_size)
             V2.init (640%N, 480%N) eq_refl).
Defined.

(** C9: along every run of either variant both flags are [true]; so the
    flag guards never stop a call: [detectFaces] starts a detection
    whenever the model is loaded and the video plays, and [addLandmarks]
    suspends on the stored detection whenever the canvas is bound. *)
Theorem C9_gate_flags_stay_true :
  (forall evs,
     V2.previousDetectionFinished (V2.run evs V2.init) = true /\
     V2.previousLandmarkDrawn (V2.run evs V2.init) = true) /\
  (forall evs,
     V1.previousDetectionFinished (V1.run evs V1.init) = true /\
     V1.previousLandmarkDrawn (V1.run evs V1.init) = true) /\
  (forall evs v,
     V2.modelLoaded (V2.run evs V2.init) = true ->
     V2.videoElement (V2.run evs V2.init) = Some v ->
     paused v = false -> ended v = false ->
     V2.inFlight (V2.detectFaces (V2.run evs V2.init))
       = S (V2.inFlight (V2.run evs V2.init))) /\
  (forall evs c,
     V2.canvasElement (V2.run evs V2.init) = Some c ->
     V2.microtasks (V2.addLandmarks (V2.run evs V2.init))
       = V2.microtasks (V2.run evs V2.init)
           ++ [V2.detections (V2.run evs V2.init)]) /\
  (forall evs v,
     V1.modelLoaded (V1.run evs V1.init) = true ->
     V1.videoElement (V1.run evs V1.init) = Some v ->
     paused v = false -> ended v = false ->
     V1.inFlight (V1.detectFaces (V1.run evs V1.init))
       = S (V1.inFlight (V1.run evs V1.init))) /\
  (forall evs c,
     V1.canvasElement (V1.run evs V1.init) = Some c ->
     V1.microtasks (V1.addLandmarks (V1.run evs V1.init))
       = V1.microtasks (V1.run evs V1.init)
           ++ [V1.detections (V1.run evs V1.init)]).
Proof.
  assert (F2 : forall evs,
             V2.previousDetectionFinished (V2.run evs V2.init) = true /\
             V2.previousLandmarkDrawn (V2.run evs V2.init) = true).
  { intros evs. destruct (run2_invariant evs) as (L & D & _). now split. }
  assert (F1 : forall evs,
             V1.previousDetectionFinished (V1.run evs V1.init) = true /\
             V1.previousLandmarkDrawn (V1.run evs V1.init) = true).
  { intros evs. pose proof (run1_cells evs) as E. unfold cells1 in E.
    injection E as _ L D. now split. }
  split; [exact F2|]. split; [exact F1|].
  split; [|split; [|split]].
  - intros evs v M V P E. destruct (F2 evs) as [D _].
    unfold V2.detectFaces. rewrite M, V, P, E, D. reflexivity.
  - intros evs c C. destruct (F2 evs) as [_ L].
    unfold V2.addLandmarks. rewrite C, L. reflexivity.
  - intros evs v M V P E. destruct (F1 evs) as [D _].
    unfold V1.detectFaces. rewrite M, V, P, E, D. reflexivity.
  - intros evs c C. destruct (F1 evs) as [_ L].
    unfold V1.addLandmarks. rewrite C, L. reflexivity.
Qed.

Lemma C9_gate_flags_stay_true_witness :
  let evs := startup ++ [Frame 640 480] in
  let v := mkVideo false false true in
  let c := mkCanvas 640 480 true (Some "hue-rotate(180deg)"%string) [] 0 in
  (V2.modelLoaded (V2.run evs V2.init) = true /\
   V2.videoElement (V2.run evs V2.init) = Some v /\
   paused v = false /\ ended v = false /\
   V2.inFlight (V2.detectFaces (V2.run evs V2.init))
     = S (V2.inFlight (V2.run evs V2.init))) /\
  (V2.canvasElement (V2.run evs V2.init) = Some c /\
   V2.microtasks (V2.addLandmarks (V2.run evs V2.init))
     = V2.microtasks (V2.run evs V2.init)
         ++ [V2.detections (V2.run evs V2.init)]) /\
  (V1.modelLoaded (V1.run evs V1.init) = true /\
   V1.videoElement (V1.run evs V1.init) = Some v /\
   V1.inFlight (V1.detectFaces (V1.run evs V1.init))
     = S (V1.inFlight (V1.run evs V1.init))).
Proof.
  cbv zeta.
  assert (M : V2.modelLoaded (V2.run (startup ++ [Frame 640 480]) V2.init)
              = true) by (vm_compute; reflexivity).
  assert (V : V2.videoElement (V2.run (startup ++ [Frame 640 480]) V2.init)
              = Some (mkVideo false false true))
    by (vm_compute; reflexivity).
  assert (C : V2.canvasElement (V2.run (startup ++ [Frame 640 480]) V2.init)
              = Some (mkCanvas 640 480 true
                        (Some "hue-rotate(180deg)"%string) [] 0))
    by (vm_compute; reflexivity).
  assert (M1 : V1.modelLoaded (V1.run (startup ++ [Frame 640 480]) V1.init)
               = true) by (vm_compute; reflexivity).
  assert (V1 : V1.videoElement (V1.run (startup ++ [Frame 640 480]) V1.init)
               = Some (mkVideo false false true))
    by (vm_compute; reflexivity).
  split; [|split].
  - split; [exact M|]. split; [exact V|].
    split; [reflexivity|]. split; [reflexivity|].
    exact (proj1 (proj2 (proj2 C9_gate_flags_stay_true)) _ _ M V
             eq_refl eq_refl).
  - split; [exact C|].
    exact (proj1 (proj2 (proj2 (proj2 C9_gate_flags_stay_true))) _ _ C).
  - split; [exact M1|]. split; [exact V1|].
    exact (proj1 (proj2 (proj2 (proj2 (proj2 C9_gate_flags_stay_true))))
             _ _ M1 V1 eq_refl eq_refl).
Defined.

End Sizer_and_flags.

(** ** The filter of the first variant *)

Section First_variant_filter.

Lemma style_addLandmarks_resume1 a s c :
  V1.canvasElement s = Some c ->
  exists c',
    V1.canvasElement (V1.addLandmarks_resume a s) = Some c' /\
    style_filter c' = style_filter c.
Proof.
  intros C. unfold V1.addLandmarks_resume. rewrite C.
  destruct (awaited_landmarks a); cbn; eauto.
Qed.

Lemma style_drain1 q : forall s c,
  V1.canvasElement s = Some c ->
  exists c',
    V1.canvasElement
      (fold_left (fun s a => V1.addLandmarks_resume a s) q s) = Some c' /\
    style_filter c' = style_filter c.
Proof.
  induction q as [|a q IH]; intros s c C; simpl; [eauto|].
  destruct (style_addLandmarks_resume1 a s c C) as (c1 & C1 & S1).
  destruct (IH _ _ C1) as (c2 & C2 & S2).
  exists c2. split; [exact C2|congruence].
Qed.

(** A frame callback that passes its guards and those of [handleImage]
    assigns the filter computed from the mood. *)
Lemma frameCallback1_style w h s :
  V1.ctxRaw s <> None -> V1.ctx s <> None -> V1.videoElement s <> None ->
  exists c,
    V1.canvasElement (V1.frameCallback w h s) = Some c /\
    style_filter c = Some (V1.filter_style (V1.mood s)).
Proof.
  destruct s as [ml v r c sz d m pl pd n q fc].
  unfold V1.ctxRaw, V1.ctx. cbn. intros R C V.
  destruct v as [v|]; [|congruence].
  destruct r as [[rw rh [|] rf rl ri]|]; cbn in R; try congruence.
  destruct c as [[cw ch [|] cf cl ci]|]; cbn in C; try congruence.
  unfold V1.frameCallback, V1.ctxRaw, V1.handleImage, V1.ctx,
    V1.resizeCanvas, V1.detectFaces, V1.addLandmarks. cbn.
  destruct ml; cbn;
    [destruct (paused v), (ended v), pd; cbn|];
    destruct pl; cbn; eexists; split; reflexivity.
Qed.

(** C10: the first variant has no mood transition: on every run the mood
    is the initial 0, so every frame that reaches the assignment sets the
    filter to 'sepia(1) saturate(4) hue-rotate(0deg)'.  The second variant
    starts at 180 and its frames move the mood. *)
Theorem C10_first_variant_mood_is_constant :
  V1.mood V1.init = 0 /\
  (forall evs, V1.mood (V1.run evs V1.init) = 0) /\
  (forall evs w h n,
     V1.frameCallbacks (V1.run evs V1.init) = S n ->
     V1.ctxRaw (V1.run evs V1.init) <> None ->
     V1.ctx (V1.run evs V1.init) <> None ->
     V1.videoElement (V1.run evs V1.init) <> None ->
     exists c,
       V1.canvasElement (V1.step (V1.run evs V1.init) (Frame w h)) = Some c /\
       style_filter c
         = Some "sepia(1) saturate(4) hue-rotate(0deg)"%string) /\
  V2.mood V2.init = 180 /\
  (exists evs ev,
     V2.mood (V2.step (V2.run evs V2.init) ev)
       <> V2.mood (V2.run evs V2.init)).
Proof.
  assert (M : forall evs, V1.mood (V1.run evs V1.init) = 0).
  { intros evs. pose proof (run1_cells evs) as E. now injection E. }
  split; [reflexivity|]. split; [exact M|].
  split; [|split; [reflexivity|]].
  - intros evs w h n N R C V.
    unfold V1.step. cbn [V1.handler]. rewrite N.
    set (s := V1.run evs V1.init) in *.
    destruct (frameCallback1_style w h (V1.set_frameCallbacks n s))
      as (c1 & C1 & S1); try assumption.
    unfold V1.runMicrotasks.
    destruct (style_drain1
                (V1.microtasks (V1.frameCallback w h
                                  (V1.set_frameCallbacks n s)))
                (V1.set_microtasks []
                   (V1.frameCallback w h (V1.set_frameCallbacks n s)))
                c1 C1) as (c2 & C2 & S2).
    exists c2. split; [exact C2|].
    rewrite S2, S1.
    change (V1.mood (V1.set_frameCallbacks n s)) with (V1.mood s).
    unfold s. now rewrite (M evs).
  - exists (two_moods "neutral" "happy"), (Frame 640 480).
    vm_compute. discriminate.
Qed.

Lemma C10_first_variant_mood_is_constant_witness :
  let evs := startup ++ [Frame 640 480; Frame 1280 720] in
  V1.frameCallbacks (V1.run evs V1.init) = 1%nat /\
  V1.ctxRaw (V1.run evs V1.init) <> None /\
  V1.ctx (V1.run evs V1.init) <> None /\
  V1.videoElement (V1.run evs V1.init) <> None /\
  exists c,
    V1.canvasElement (V1.step (V1.run evs V1.init) (Frame 640 480)) = Some c /\
    style_filter c = Some "sepia(1) saturate(4) hue-rotate(0deg)"%string.
Proof.
  cbv zeta.
  assert (N : V1.frameCallbacks
                (V1.run (startup ++ [Frame 640 480; Frame 1280 720]) V1.init)
              = 1%nat) by (vm_compute; reflexivity).
  assert (R : V1.ctxRaw
                (V1.run (startup ++ [Frame 640 480; Frame 1280 720]) V1.init)
              <> None) by (vm_compute; discriminate).
  assert (C : V1.ctx
                (V1.run (startup ++ [Frame 640 480; Frame 1280 720]) V1.init)
              <> None) by (vm_compute; discriminate).
  assert (V : V1.videoElement
                (V1.run (startup ++ [Frame 640 480; Frame 1280 720]) V1.init)
              <> None) by (vm_compute; discriminate).
  split; [exact N|]. split; [exact R|]. split; [exact C|]. split; [exact V|].
  exact (proj1 (proj2 (proj2 C10_first_variant_mood_is_constant))
           _ 640%N 480%N _ N R C V).
Defined.

End First_variant_filter.

(** ** One task at a time: what a step of the second variant does *)

Section V2_steps.

Lemma runMicrotasks2_settled s :
  V2.microtasks s = [] -> V2.runMicrotasks s = s.
Proof.
  destruct s; cbn. intros ->. reflexivity.
Qed.

Lemma frame2_effect s n w h c v :
  settled2 s ->
  V2.frameCallbacks s = S n ->
  V2.canvasElement s = Some c -> context2d c = true ->
  V2.videoElement s = Some v ->
  V2.step s (Frame w h) =
    V2.mkState (V2.modelLoaded s) (Some v)
      (Some (mkCanvas w h true
               (Some (V2.filter_style (V2.mood (V2.updateMood s))))
               (landmarksDrawn c ++ drawn_for (V2.detections s))
               (imagesDrawn c)))
      (V2.filterElement (V2.updateMood s)) (w, h) (V2.detections s)
      (V2.mood (V2.updateMood s)) true (V2.previousDetectionFinished s)
      (V2.console (V2.updateMood s)) (V2.inFlight (V2.detectFaces s)) []
      (S n).
Proof.
  destruct s as [ml ve ce fe sz d m pl pd co fl q fc].
  intros [L Q] F C X V. cbn in L, Q, F, C, V. subst.
  destruct c as [cw ch cx cf cl ci]. cbn in X. subst cx.
  unfold V2.step, V2.handler, V2.frameCallback, V2.ctx. cbn.
  unfold V2.resizeCanvas. cbn.
  unfold V2.detectFaces. cbn.
  destruct ml, (paused v), (ended v), pd; cbn;
  unfold V2.addLandmarks; cbn; unfold V2.updateMood; cbn;
  (destruct d as [[lm [[|e rest]]]|]; cbn;
   [ | repeat match goal with
         | |- context [(?a =? ?b)%string] => destruct (a =? b)%string
         end; destruct fe; cbn | ]);
   unfold V2.runMicrotasks, V2.addLandmarks_resume, drawn_for; cbn;
   try (destruct lm; cbn); try rewrite app_nil_r; try reflexivity.
Qed.

Lemma frame2_skipped s n w h :
  settled2 s -> V2.frameCallbacks s = S n ->
  V2.ctx s = None \/ V2.videoElement s = None ->
  V2.step s (Frame w h) = V2.set_frameCallbacks n s.
Proof.
  destruct s as [ml ve ce fe sz d m pl pd co fl q fc].
  intros [L Q] F G. cbn in L, Q, F. subst.
  unfold V2.step, V2.handler, V2.frameCallback, V2.ctx in *. cbn in *.
  destruct G as [G|G]; [|subst ve; destruct (getContext ce); reflexivity].
  rewrite G. reflexivity.
Qed.

Lemma frame2_unregistered s w h :
  settled2 s -> V2.frameCallbacks s = O -> V2.step s (Frame w h) = s.
Proof.
  intros [L Q] F. unfold V2.step. cbn [V2.handler]. rewrite F.
  now apply runMicrotasks2_settled.
Qed.

Lemma step2_outside_frames s ev :
  settled2 s -> (forall w h, ev <> Frame w h) ->
  V2.step s ev = V2.handler ev s.
Proof.
  intros [L Q] NF. unfold V2.step. apply runMicrotasks2_settled.
  destruct s as [ml ve ce fe sz d m pl pd co fl q fc]. cbn in Q. subst q.
  destruct ev as [[v|c|c|f]| | |w h|r]; cbn; try reflexivity.
  - unfold V2.handleStream. cbn. destruct ve, ce; reflexivity.
  - now destruct (NF w h).
  - unfold V2.detectFaces_resume. cbn. destruct fl; reflexivity.
Qed.

(** The three ways a frame can go. *)
Lemma guards2_cases s :
  (V2.ctx s = None \/ V2.videoElement s = None) \/
  exists c v, V2.canvasElement s = Some c /\ context2d c = true /\
              V2.videoElement s = Some v.
Proof.
  unfold V2.ctx, getContext.
  destruct (V2.canvasElement s) as [c|]; [|now left; left].
  destruct (context2d c) eqn:X; [|now left; left].
  destruct (V2.videoElement s) as [v|]; [|now left; right].
  right. now exists c, v.
Qed.

Lemma settled2_step s ev : settled2 s -> settled2 (V2.step s ev).
Proof.
  intros [L Q]. split.
  - assert (K : V2.previousLandmarkDrawn (V2.handler ev s) = true).
    { destruct ev as [e| | |w h|r]; cbn [V2.handler].
      - pose proof (cells2_env_step e s) as E. unfold cells2 in E.
        injection E as _ -> _. exact L.
      - exact L.
      - pose proof (cells2_handleStream s) as E. unfold cells2 in E.
        injection E as _ -> _. exact L.
      - destruct (V2.frameCallbacks s) as [|n]; [exact L|].
        destruct (frameCallback_flags w h (V2.set_frameCallbacks n s))
          as [-> _]. exact L.
      - pose proof (cells2_detectFaces_resume r s) as E. unfold cells2 in E.
        injection E as _ -> _. exact L. }
    unfold V2.step.
    pose proof (cells2_runMicrotasks _ K) as E. unfold cells2 in E.
    injection E as _ -> _. exact K.
  - unfold V2.step, V2.runMicrotasks. now rewrite microtasks_drain.
Qed.

Lemma settled2_run evs : forall s, settled2 s -> settled2 (V2.run evs s).
Proof.
  induction evs as [|ev evs IH]; intros s H; [exact H|].
  apply (IH (V2.step s ev)). now apply settled2_step.
Qed.

Lemma settled2_reached evs : settled2 (V2.run evs V2.init).
Proof. apply settled2_run. split; reflexivity. Qed.

End V2_steps.

Section V2_extras.

(** How a frame goes from a settled state: not delivered, dropped by a
    guard, or processed. *)
Lemma frame2_cases s w h :
  settled2 s ->
  V2.step s (Frame w h) = s \/
  (exists n, V2.frameCallbacks s = S n /\
     (V2.ctx s = None \/ V2.videoElement s = None) /\
     V2.step s (Frame w h) = V2.set_frameCallbacks n s) \/
  (exists n c v, V2.frameCallbacks s = S n /\
     V2.canvasElement s = Some c /\ context2d c = true /\
     V2.videoElement s = Some v /\
     V2.step s (Frame w h) =
       V2.mkState (V2.modelLoaded s) (Some v)
         (Some (mkCanvas w h true
                  (Some (V2.filter_style (V2.mood (V2.updateMood s))))
                  (landmarksDrawn c ++ drawn_for (V2.detections s))
                  (imagesDrawn c)))
         (V2.filterElement (V2.updateMood s)) (w, h) (V2.detections s)
         (V2.mood (V2.updateMood s)) true (V2.previousDetectionFinished s)
         (V2.console (V2.updateMood s)) (V2.inFlight (V2.detectFaces s)) []
         (S n)).
Proof.
  intros H. destruct (V2.frameCallbacks s) as [|n] eqn:F.
  - left. now apply frame2_unregistered.
  - right. destruct (guards2_cases s) as [G|(c & v & C & X & V)].
    + left. exists n. repeat split; auto using frame2_skipped.
    + right. exists n, c, v. repeat split; auto using frame2_effect.
Qed.

(** X1: on every run of the second variant the mood is a multiple of 5
    between 0 and 185. *)
Theorem X1_mood_stays_on_grid evs :
  0 <= V2.mood (V2.run evs V2.init) <= 185 /\
  (5 | V2.mood (V2.run evs V2.init)).
Proof. destruct (run2_invariant evs) as (_ & _ & M). exact M. Qed.

(** X3: a task that is not a frame (an element bound, the model loaded, the
    stream delivered, a detection settled) leaves the mood, the recorded
    size and the console as they are. *)
Theorem X3_only_a_frame_moves_the_mood evs ev :
  (forall w h, ev <> Frame w h) ->
  V2.mood (V2.step (V2.run evs V2.init) ev) = V2.mood (V2.run evs V2.init) /\
  V2.size (V2.step (V2.run evs V2.init) ev) = V2.size (V2.run evs V2.init) /\
  V2.console (V2.step (V2.run evs V2.init) ev)
    = V2.console (V2.run evs V2.init).
Proof.
  intros NF. rewrite (step2_outside_frames _ _ (settled2_reached evs) NF).
  set (s := V2.run evs V2.init).
  destruct ev as [[v|c|c|f]| | |w h|r]; cbn; auto.
  - unfold V2.handleStream.
    destruct (V2.videoElement s), (V2.canvasElement s); auto.
  - now destruct (NF w h).
  - unfold V2.detectFaces_resume. destruct (V2.inFlight s); auto.
Qed.

Lemma X3_only_a_frame_moves_the_mood_witness :
  let evs := two_moods "neutral" "happy" ++ [Frame 640 480] in
  let ev := DetectionDone (Some (face "sad")) in
  (forall w h, ev <> Frame w h) /\
  V2.mood (V2.step (V2.run evs V2.init) ev) = V2.mood (V2.run evs V2.init) /\
  V2.size (V2.step (V2.run evs V2.init) ev) = V2.size (V2.run evs V2.init) /\
  V2.console (V2.step (V2.run evs V2.init) ev)
    = V2.console (V2.run evs V2.init).
Proof.
  cbv zeta.
  assert (NF : forall w h, DetectionDone (Some (face "sad")) <> Frame w h)
    by (intros w h K; discriminate K).
  split; [exact NF|].
  exact (X3_only_a_frame_moves_the_mood _ _ NF).
Defined.

Lemma before_load_step s ev :
  settled2 s ->
  (V2.modelLoaded s = false ->
   V2.inFlight s = O /\ V2.detections s = None /\ V2.mood s = 180 /\
   V2.console s = []) ->
  V2.modelLoaded (V2.step s ev) = false ->
  V2.inFlight (V2.step s ev) = O /\ V2.detections (V2.step s ev) = None /\
  V2.mood (V2.step s ev) = 180 /\ V2.console (V2.step s ev) = [].
Proof.
  intros H I.
  destruct ev as [e| | |w h|r].
  - rewrite (step2_outside_frames s (Env e) H)
      by (intros ? ? K; discriminate K).
    destruct e; exact I.
  - rewrite (step2_outside_frames s ModelLoaded H)
      by (intros ? ? K; discriminate K).
    cbn. discriminate.
  - rewrite (step2_outside_frames s StreamReady H)
      by (intros ? ? K; discriminate K).
    cbn. unfold V2.handleStream.
    destruct (V2.videoElement s), (V2.canvasElement s); exact I.
  - destruct (frame2_cases s w h H)
      as [->|[(n & _ & _ & ->)|(n & c & v & _ & _ & _ & _ & ->)]];
      cbn; try exact I.
    intros M. destruct (I M) as (A & B & C & D).
    rewrite (updateMood_no_detection s B).
    unfold V2.detectFaces. rewrite M. cbn. auto.
  - rewrite (step2_outside_frames s (DetectionDone r) H)
      by (intros ? ? K; discriminate K).
    cbn. unfold V2.detectFaces_resume.
    destruct (V2.inFlight s) eqn:F; [rewrite F; exact I|].
    cbn. intros M. destruct (I M) as (A & _). discriminate A.
Qed.

(** X4: as long as the model has not finished loading, no detection has
    been started or stored, the mood is the initial 180 and nothing was
    logged, whatever frames were delivered. *)
Theorem X4_nothing_happens_before_the_model_loads evs :
  V2.modelLoaded (V2.run evs V2.init) = false ->
  V2.inFlight (V2.run evs V2.init) = O /\
  V2.detections (V2.run evs V2.init) = None /\
  V2.mood (V2.run evs V2.init) = 180 /\
  V2.console (V2.run evs V2.init) = [].
Proof.
  induction evs as [|ev evs IH] using rev_ind.
  - cbn. auto.
  - rewrite run2_snoc.
    apply before_load_step; [apply settled2_reached | exact IH].
Qed.


Lemma X4_nothing_happens_before_the_model_loads_witness :
  let evs := [Env (BindVideo (Some idle_video));
              Env (BindCanvas (Some blank_canvas)); StreamReady;
              Frame 640 480; Frame 1280 720] in
  V2.modelLoaded (V2.run evs V2.init) = false /\
  V2.inFlight (V2.run evs V2.init) = O /\
  V2.detections (V2.run evs V2.init) = None /\
  V2.mood (V2.run evs V2.init) = 180 /\
  V2.console (V2.run evs V2.init) = [].
Proof.
  cbv zeta.
  assert (M : V2.modelLoaded
                (V2.run [Env (BindVideo (Some idle_video));
                         Env (BindCanvas (Some blank_canvas)); StreamReady;
                         Frame 640 480; Frame 1280 720] V2.init) = false)
    by (vm_compute; reflexivity).
  split; [exact M|].
  exact (X4_nothing_happens_before_the_model_loads _ M).
Defined.

Lemma reachable2_settled s : V2.reachable s -> settled2 s.
Proof. intros [evs ->]. apply settled2_reached. Qed.

Lemma reachable2_step s ev : V2.reachable s -> V2.reachable (V2.step s ev).
Proof.
  intros [evs ->]. exists (evs ++ [ev]). now rewrite run2_snoc.
Qed.

Lemma reachable2_run evs : forall s,
  V2.reachable s -> V2.reachable (V2.run evs s).
Proof.
  induction evs as [|ev evs IH]; intros s H; [exact H|].
  apply (IH (V2.step s ev)). now apply reachable2_step.
Qed.

Lemma reachable2_flag s :
  V2.reachable s -> V2.previousDetectionFinished s = true.
Proof. intros [evs ->]. now destruct (run2_invariant evs) as (_ & D & _). Qed.

Lemma streams_cons ev evs :
  streams (ev :: evs) = ((if is_stream ev then 1 else 0) + streams evs)%nat.
Proof. unfold streams. cbn. now destruct (is_stream ev). Qed.

Lemma streams_snoc evs ev :
  streams (evs ++ [ev]) = (streams evs + (if is_stream ev then 1 else 0))%nat.
Proof.
  unfold streams. rewrite filter_app, length_app. cbn.
  now destruct (is_stream ev).
Qed.

(** With no callback registered and no stream delivered, the hook idles. *)
Lemma idle2_run rest : forall s,
  settled2 s -> V2.frameCallbacks s = O -> streams rest = O ->
  V2.frameCallbacks (V2.run rest s) = O /\
  V2.mood (V2.run rest s) = V2.mood s /\
  V2.size (V2.run rest s) = V2.size s /\
  V2.console (V2.run rest s) = V2.console s /\
  (V2.inFlight (V2.run rest s) <= V2.inFlight s)%nat.
Proof.
  induction rest as [|ev rest IH]; intros s H F N; [cbn; auto|].
  rewrite streams_cons in N.
  assert (K : V2.frameCallbacks (V2.step s ev) = O /\
              V2.mood (V2.step s ev) = V2.mood s /\
              V2.size (V2.step s ev) = V2.size s /\
              V2.console (V2.step s ev) = V2.console s /\
              (V2.inFlight (V2.step s ev) <= V2.inFlight s)%nat).
  { destruct ev as [e| | |w h|r].
    - rewrite (step2_outside_frames s (Env e) H)
        by (intros ? ? K; discriminate K).
      destruct e; cbn; repeat split; auto.
    - rewrite (step2_outside_frames s ModelLoaded H)
        by (intros ? ? K; discriminate K).
      cbn; repeat split; auto.
    - cbn in N. discriminate N.
    - rewrite (frame2_unregistered s w h H F). repeat split; auto.
    - rewrite (step2_outside_frames s (DetectionDone r) H)
        by (intros ? ? K; discriminate K).
      cbn. unfold V2.detectFaces_resume.
      destruct (V2.inFlight s) as [|k] eqn:E; cbn; repeat split; auto; lia. }
  destruct K as (K1 & K2 & K3 & K4 & K5).
  assert (N' : streams rest = O) by (destruct (is_stream ev); [discriminate N | exact N]).
  destruct (IH (V2.step s ev) (settled2_step s ev H) K1 N')
    as (J1 & J2 & J3 & J4 & J5).
  change (V2.run (ev :: rest) s) with (V2.run rest (V2.step s ev)).
  repeat split; try congruence. lia.
Qed.

(** X5: a frame delivered while the canvas context or the video element is
    missing returns before it asks for the next frame.  Unless the stream
    is delivered again, the loop is over: no later frame is processed, the
    mood, the size and the console stay as they were and no detection is
    started. *)
Theorem X5_a_dropped_frame_ends_the_loop s w h rest :
  V2.reachable s ->
  V2.frameCallbacks s = 1%nat ->
  V2.ctx s = None \/ V2.videoElement s = None ->
  streams rest = O ->
  V2.frameCallbacks (V2.run (Frame w h :: rest) s) = O /\
  V2.mood (V2.run (Frame w h :: rest) s) = V2.mood s /\
  V2.size (V2.run (Frame w h :: rest) s) = V2.size s /\
  V2.console (V2.run (Frame w h :: rest) s) = V2.console s /\
  (V2.inFlight (V2.run (Frame w h :: rest) s) <= V2.inFlight s)%nat.
Proof.
  intros R F G N.
  pose proof (reachable2_settled s R) as H.
  change (V2.run (Frame w h :: rest) s)
    with (V2.run rest (V2.step s (Frame w h))).
  rewrite (frame2_skipped s 0 w h H F G).
  assert (H0 : settled2 (V2.set_frameCallbacks 0 s)) by exact H.
  exact (idle2_run rest (V2.set_frameCallbacks 0 s) H0 eq_refl N).
Qed.

Lemma X5_a_dropped_frame_ends_the_loop_witness :
  let s := V2.run (startup ++ [Frame 640 480; Env (BindCanvas None)])
             V2.init in
  let rest := [DetectionDone (Some (face "sad"));
               Env (BindCanvas (Some blank_canvas)); Frame 640 480] in
  V2.reachable s /\
  V2.frameCallbacks s = 1%nat /\
  (V2.ctx s = None \/ V2.videoElement s = None) /\
  streams rest = O /\
  V2.frameCallbacks (V2.run (Frame 640 480 :: rest) s) = O /\
  V2.mood (V2.run (Frame 640 480 :: rest) s) = V2.mood s /\
  V2.size (V2.run (Frame 640 480 :: rest) s) = V2.size s /\
  V2.console (V2.run (Frame 640 480 :: rest) s) = V2.console s /\
  (V2.inFlight (V2.run (Frame 640 480 :: rest) s) <= V2.inFlight s)%nat.
Proof.
  cbv zeta.
  assert (R : V2.reachable
                (V2.run (startup ++ [Frame 640 480; Env (BindCanvas None)])
                   V2.init)) by (eexists; reflexivity).
  assert (F : V2.frameCallbacks
                (V2.run (startup ++ [Frame 640 480; Env (BindCanvas None)])
                   V2.init) = 1%nat) by (vm_compute; reflexivity).
  assert (G : V2.ctx
                (V2.run (startup ++ [Frame 640 480; Env (BindCanvas None)])
                   V2.init) = None \/
              V2.videoElement
                (V2.run (startup ++ [Frame 640 480; Env (BindCanvas None)])
                   V2.init) = None) by (left; vm_compute; reflexivity).
  assert (N : streams [DetectionDone (Some (face "sad"));
                       Env (BindCanvas (Some blank_canvas)); Frame 640 480]
              = O) by reflexivity.
  split; [exact R|]. split; [exact F|]. split; [exact G|]. split; [exact N|].
  exact (X5_a_dropped_frame_ends_the_loop _ 640%N 480%N _ R F G N).
Defined.

(** X6: the loop never multiplies: on every run at most one frame callback
    is registered per delivery of the stream. *)
Theorem X6_one_callback_per_stream evs :
  (V2.frameCallbacks (V2.run evs V2.init) <= streams evs)%nat.
Proof.
  induction evs as [|ev evs IH] using rev_ind; [cbn; lia|].
  rewrite run2_snoc, streams_snoc.
  pose proof (settled2_reached evs) as H.
  set (s := V2.run evs V2.init) in *.
  destruct ev as [e| | |w h|r].
  - rewrite (step2_outside_frames s (Env e) H)
      by (intros ? ? K; discriminate K).
    destruct e; cbn; lia.
  - rewrite (step2_outside_frames s ModelLoaded H)
      by (intros ? ? K; discriminate K).
    cbn; lia.
  - rewrite (step2_outside_frames s StreamReady H)
      by (intros ? ? K; discriminate K).
    cbn. unfold V2.handleStream.
    destruct (V2.videoElement s), (V2.canvasElement s); cbn; lia.
  - destruct (frame2_cases s w h H)
      as [->|[(n & F & _ & ->)|(n & c & v & F & _ & _ & _ & ->)]];
      cbn; lia.
  - rewrite (step2_outside_frames s (DetectionDone r) H)
      by (intros ? ? K; discriminate K).
    cbn. unfold V2.detectFaces_resume.
    destruct (V2.inFlight s); cbn; lia.
Qed.

End V2_extras.

Section V2_frames.

(** X7: a frame that passes the guards records the reported size, gives the
    canvas that size, draws the landmarks of the detection stored before
    the frame (none if there is none), sets the filter to the hue of the
    mood as [updateMood] left it, and asks for the next frame. *)
Theorem X7_a_processed_frame_paints_the_canvas s n c v w h :
  V2.reachable s ->
  V2.frameCallbacks s = S n ->
  V2.canvasElement s = Some c -> context2d c = true ->
  V2.videoElement s = Some v ->
  V2.size (V2.step s (Frame w h)) = (w, h) /\
  V2.canvasElement (V2.step s (Frame w h)) =
    Some (mkCanvas w h true
            (Some (V2.filter_style (V2.mood (V2.step s (Frame w h)))))
            (landmarksDrawn c ++ drawn_for (V2.detections s))
            (imagesDrawn c)) /\
  V2.mood (V2.step s (Frame w h)) = V2.mood (V2.updateMood s) /\
  V2.frameCallbacks (V2.step s (Frame w h)) = S n.
Proof.
  intros R F C X V.
  rewrite (frame2_effect s n w h c v (reachable2_settled s R) F C X V).
  cbn. auto.
Qed.

Lemma X7_a_processed_frame_paints_the_canvas_witness :
  let s := V2.run (two_moods "neutral" "happy") V2.init in
  let c := mkCanvas 640 480 true (Some "hue-rotate(175deg)"%string)
             [mkFaceLandmarks [(10, 20); (30, 40)]] 0 in
  let v := mkVideo false false true in
  V2.reachable s /\
  V2.frameCallbacks s = 1%nat /\
  V2.canvasElement s = Some c /\ context2d c = true /\
  V2.videoElement s = Some v /\
  V2.size (V2.step s (Frame 1280 720)) = (1280%N, 720%N) /\
  V2.canvasElement (V2.step s (Frame 1280 720)) =
    Some (mkCanvas 1280 720 true
            (Some (V2.filter_style (V2.mood (V2.step s (Frame 1280 720)))))
            (landmarksDrawn c ++ drawn_for (V2.detections s))
            (imagesDrawn c)) /\
  V2.mood (V2.step s (Frame 1280 720)) = V2.mood (V2.updateMood s) /\
  V2.frameCallbacks (V2.step s (Frame 1280 720)) = 1%nat.
Proof.
  cbv zeta.
  assert (R : V2.reachable (V2.run (two_moods "neutral" "happy") V2.init))
    by (eexists; reflexivity).
  assert (F : V2.frameCallbacks (V2.run (two_moods "neutral" "happy") V2.init)
              = 1%nat) by (vm_compute; reflexivity).
  assert (C : V2.canvasElement (V2.run (two_moods "neutral" "happy") V2.init)
              = Some (mkCanvas 640 480 true
                        (Some "hue-rotate(175deg)"%string)
                        [mkFaceLandmarks [(10, 20); (30, 40)]] 0))
    by (vm_compute; reflexivity).
  assert (V : V2.videoElement (V2.run (two_moods "neutral" "happy") V2.init)
              = Some (mkVideo false false true))
    by (vm_compute; reflexivity).
  split; [exact R|]. split; [exact F|]. split; [exact C|].
  split; [reflexivity|]. split; [exact V|].
  exact (X7_a_processed_frame_paints_the_canvas _ _ _ _ 1280%N 720%N
           R F C eq_refl V).
Defined.

Lemma frame2_inFlight s n c v w h :
  V2.reachable s ->
  V2.frameCallbacks s = S n ->
  V2.canvasElement s = Some c -> context2d c = true ->
  V2.videoElement s = Some v ->
  V2.inFlight (V2.step s (Frame w h)) =
    (if V2.modelLoaded s && negb (paused v) && negb (ended v)
     then S (V2.inFlight s) else V2.inFlight s).
Proof.
  intros R F C X V.
  rewrite (frame2_effect s n w h c v (reachable2_settled s R) F C X V).
  cbn. unfold V2.detectFaces. rewrite V, (reachable2_flag s R).
  destruct (V2.modelLoaded s), (paused v), (ended v); reflexivity.
Qed.

(** X8: a frame that passes the guards starts exactly one detection when
    the model is loaded and the video neither paused nor ended, however
    many are in flight, and none otherwise; the stored detection is not
    touched by the frame. *)
Theorem X8_a_frame_starts_one_detection_when_playing s n c v w h :
  V2.reachable s ->
  V2.frameCallbacks s = S n ->
  V2.canvasElement s = Some c -> context2d c = true ->
  V2.videoElement s = Some v ->
  V2.inFlight (V2.step s (Frame w h)) =
    (if V2.modelLoaded s && negb (paused v) && negb (ended v)
     then S (V2.inFlight s) else V2.inFlight s) /\
  V2.detections (V2.step s (Frame w h)) = V2.detections s.
Proof.
  intros R F C X V. split; [now apply (frame2_inFlight s n c v)|].
  now rewrite (frame2_effect s n w h c v (reachable2_settled s R) F C X V).
Qed.

Lemma X8_a_frame_starts_one_detection_when_playing_witness :
  let s := V2.run (startup ++ [Frame 640 480;
                               Env (BindVideo (Some idle_video))])
             V2.init in
  let c := mkCanvas 640 480 true (Some "hue-rotate(180deg)"%string) [] 0 in
  V2.reachable s /\
  V2.frameCallbacks s = 1%nat /\
  V2.canvasElement s = Some c /\ context2d c = true /\
  V2.videoElement s = Some idle_video /\
  V2.inFlight (V2.step s (Frame 640 480)) =
    (if V2.modelLoaded s && negb (paused idle_video)
        && negb (ended idle_video)
     then S (V2.inFlight s) else V2.inFlight s) /\
  V2.detections (V2.step s (Frame 640 480)) = V2.detections s.
Proof.
  cbv zeta.
  assert (R : V2.reachable
                (V2.run (startup ++ [Frame 640 480;
                                     Env (BindVideo (Some idle_video))])
                   V2.init)) by (eexists; reflexivity).
  assert (F : V2.frameCallbacks
                (V2.run (startup ++ [Frame 640 480;
                                     Env (BindVideo (Some idle_video))])
                   V2.init) = 1%nat) by (vm_compute; reflexivity).
  assert (C : V2.canvasElement
                (V2.run (startup ++ [Frame 640 480;
                                     Env (BindVideo (Some idle_video))])
                   V2.init)
              = Some (mkCanvas 640 480 true
                        (Some "hue-rotate(180deg)"%string) [] 0))
    by (vm_compute; reflexivity).
  assert (V : V2.videoElement
                (V2.run (startup ++ [Frame 640 480;
                                     Env (BindVideo (Some idle_video))])
                   V2.init) = Some idle_video)
    by (vm_compute; reflexivity).
  split; [exact R|]. split; [exact F|]. split; [exact C|].
  split; [reflexivity|]. split; [exact V|].
  exact (X8_a_frame_starts_one_detection_when_playing _ _ _ _
           640%N 480%N R F C eq_refl V).
Defined.

(** X9: while the video plays and no detection settles, every frame adds
    one detection in flight: after k frames there are k more. *)
Theorem X9_detections_pile_up sizes : forall s n c v,
  V2.reachable s ->
  V2.frameCallbacks s = S n ->
  V2.canvasElement s = Some c -> context2d c = true ->
  V2.videoElement s = Some v -> paused v = false -> ended v = false ->
  V2.modelLoaded s = true ->
  V2.inFlight (V2.run (frames sizes) s)
    = (V2.inFlight s + length sizes)%nat.
Proof.
  induction sizes as [|[w h] sizes IH]; intros s n c v R F C X V P E M.
  - cbn. lia.
  - change (V2.run (frames ((w, h) :: sizes)) s)
      with (V2.run (frames sizes) (V2.step s (Frame w h))).
    pose proof (frame2_effect s n w h c v (reachable2_settled s R) F C X V)
      as Q.
    pose proof (frame2_inFlight s n c v w h R F C X V) as I.
    rewrite M, P, E in I. cbn in I.
    rewrite (IH (V2.step s (Frame w h)) n
               (mkCanvas w h true
                  (Some (V2.filter_style (V2.mood (V2.updateMood s))))
                  (landmarksDrawn c ++ drawn_for (V2.detections s))
                  (imagesDrawn c)) v);
      try (rewrite Q; reflexivity); auto using reachable2_step.
    + rewrite I. cbn. lia.
    + rewrite Q. exact M.
Qed.


Lemma X9_detections_pile_up_witness :
  let s := V2.run (startup ++ [Frame 640 480]) V2.init in
  let c := mkCanvas 640 480 true (Some "hue-rotate(180deg)"%string) [] 0 in
  let v := mkVideo false false true in
  let sizes := [(640%N, 480%N); (1280%N, 720%N); (640%N, 480%N)] in
  V2.reachable s /\
  V2.frameCallbacks s = 1%nat /\
  V2.canvasElement s = Some c /\ context2d c = true /\
  V2.videoElement s = Some v /\ paused v = false /\ ended v = false /\
  V2.modelLoaded s = true /\
  V2.inFlight (V2.run (frames sizes) s)
    = (V2.inFlight s + length sizes)%nat.
Proof.
  cbv zeta.
  assert (R : V2.reachable (V2.run (startup ++ [Frame 640 480]) V2.init))
    by (eexists; reflexivity).
  assert (F : V2.frameCallbacks (V2.run (startup ++ [Frame 640 480]) V2.init)
              = 1%nat) by (vm_compute; reflexivity).
  assert (C : V2.canvasElement (V2.run (startup ++ [Frame 640 480]) V2.init)
              = Some (mkCanvas 640 480 true
                        (Some "hue-rotate(180deg)"%string) [] 0))
    by (vm_compute; reflexivity).
  assert (V : V2.videoElement (V2.run (startup ++ [Frame 640 480]) V2.init)
              = Some (mkVideo false false true))
    by (vm_compute; reflexivity).
  assert (M : V2.modelLoaded (V2.run (startup ++ [Frame 640 480]) V2.init)
              = true) by (vm_compute; reflexivity).
  split; [exact R|]. split; [exact F|]. split; [exact C|].
  split; [reflexivity|]. split; [exact V|].
  split; [reflexivity|]. split; [reflexivity|]. split; [exact M|].
  exact (X9_detections_pile_up
           [(640%N, 480%N); (1280%N, 720%N); (640%N, 480%N)]
           _ _ _ _ R F C eq_refl V eq_refl eq_refl M).
Defined.

(** Without a stored detection and without a settlement, the mood and the
    console hold. *)
Lemma faceless2_run rest : forall s,
  settled2 s -> V2.detections s = None ->
  Forall (fun ev => forall r, ev <> DetectionDone r) rest ->
  V2.detections (V2.run rest s) = None /\
  V2.mood (V2.run rest s) = V2.mood s /\
  V2.console (V2.run rest s) = V2.console s.
Proof.
  induction rest as [|ev rest IH]; intros s H D A; [cbn; auto|].
  inversion A as [|? ? A1 A2]; subst.
  assert (K : V2.detections (V2.step s ev) = None /\
              V2.mood (V2.step s ev) = V2.mood s /\
              V2.console (V2.step s ev) = V2.console s).
  { destruct ev as [e| | |w h|r].
    - rewrite (step2_outside_frames s (Env e) H)
        by (intros ? ? K; discriminate K).
      destruct e; cbn; auto.
    - rewrite (step2_outside_frames s ModelLoaded H)
        by (intros ? ? K; discriminate K).
      cbn; auto.
    - rewrite (step2_outside_frames s StreamReady H)
        by (intros ? ? K; discriminate K).
      cbn. unfold V2.handleStream.
      destruct (V2.videoElement s), (V2.canvasElement s); cbn; auto.
    - destruct (frame2_cases s w h H)
        as [->|[(n & _ & _ & ->)|(n & c & v & _ & _ & _ & _ & ->)]];
        cbn; auto.
      rewrite (updateMood_no_detection s D). auto.
    - now destruct (A1 r). }
  destruct K as (K1 & K2 & K3).
  destruct (IH (V2.step s ev) (settled2_step s ev H) K1 A2) as (J1 & J2 & J3).
  change (V2.run (ev :: rest) s) with (V2.run rest (V2.step s ev)).
  repeat split; congruence.
Qed.

(** X13: when a detection settles with no face, the stored detection is
    cleared, and until another one settles the mood and the console do not
    move, whatever frames and bindings follow: the mood neither decays nor
    resets while nobody is seen. *)
Theorem X13_without_a_face_the_mood_holds s rest :
  V2.reachable s ->
  (0 < V2.inFlight s)%nat ->
  Forall (fun ev => forall r, ev <> DetectionDone r) rest ->
  V2.detections (V2.run (DetectionDone None :: rest) s) = None /\
  V2.mood (V2.run (DetectionDone None :: rest) s) = V2.mood s /\
  V2.console (V2.run (DetectionDone None :: rest) s) = V2.console s.
Proof.
  intros R I A. pose proof (reachable2_settled s R) as H.
  change (V2.run (DetectionDone None :: rest) s)
    with (V2.run rest (V2.step s (DetectionDone None))).
  assert (K : V2.detections (V2.step s (DetectionDone None)) = None /\
              V2.mood (V2.step s (DetectionDone None)) = V2.mood s /\
              V2.console (V2.step s (DetectionDone None)) = V2.console s).
  { rewrite (step2_outside_frames s (DetectionDone None) H)
      by (intros ? ? K; discriminate K).
    cbn. unfold V2.detectFaces_resume.
    destruct (V2.inFlight s); [lia|]. cbn. auto. }
  destruct K as (K1 & K2 & K3).
  destruct (faceless2_run rest _ (settled2_step s _ H) K1 A)
    as (J1 & J2 & J3).
  repeat split; congruence.
Qed.

Lemma X13_without_a_face_the_mood_holds_witness :
  let s := V2.run (two_moods "neutral" "happy" ++ [Frame 640 480])
             V2.init in
  let rest := [Frame 640 480; Env (BindFilter None); Frame 1280 720] in
  V2.reachable s /\
  (0 < V2.inFlight s)%nat /\
  Forall (fun ev => forall r, ev <> DetectionDone r) rest /\
  V2.detections (V2.run (DetectionDone None :: rest) s) = None /\
  V2.mood (V2.run (DetectionDone None :: rest) s) = V2.mood s /\
  V2.console (V2.run (DetectionDone None :: rest) s) = V2.console s.
Proof.
  cbv zeta.
  assert (R : V2.reachable
                (V2.run (two_moods "neutral" "happy" ++ [Frame 640 480])
                   V2.init)) by (eexists; reflexivity).
  assert (I : (0 < V2.inFlight
                     (V2.run (two_moods "neutral" "happy" ++ [Frame 640 480])
                        V2.init))%nat) by (vm_compute; lia).
  assert (A : Forall (fun ev => forall r, ev <> DetectionDone r)
                [Frame 640 480; Env (BindFilter None); Frame 1280 720])
    by (repeat constructor; intros r K; discriminate K).
  split; [exact R|]. split; [exact I|]. split; [exact A|].
  exact (X13_without_a_face_the_mood_holds _ _ R I A).
Defined.

End V2_frames.

Section V2_moods.

Lemma transition_on_tens label m :
  label <> "neutral"%string -> 0 <= m <= 180 -> (10 | m) ->
  0 <= V2.mood_transition label m <= 180 /\
  (10 | V2.mood_transition label m).
Proof.
  intros NN B [k ->]. unfold V2.mood_transition.
  destruct (String.eqb_spec label "happy").
  - destruct (Z.ltb_spec (k * 10) 180).
    + split; [lia | exists (k + 1); lia].
    + split; [lia | exists 18; lia].
  - destruct (String.eqb_spec label "neutral"); [contradiction|].
    destruct (label =? "sad")%string; [split; [lia | exists 0; lia]|].
    destruct (label =? "angry")%string; [split; [lia | exists 0; lia]|].
    split; [lia | exists k; lia].
Qed.

Lemma updateMood_on_tens s :
  first_label (V2.detections s) <> Some "neutral"%string ->
  0 <= V2.mood s <= 180 -> (10 | V2.mood s) ->
  0 <= V2.mood (V2.updateMood s) <= 180 /\ (10 | V2.mood (V2.updateMood s)).
Proof.
  intros NN B T. destruct (V2.detections s) as [d|] eqn:D.
  - cbn in NN. destruct (top_expression d) as [l|] eqn:L.
    + rewrite (updateMood_mood s d l D L).
      apply transition_on_tens; auto. congruence.
    + rewrite (updateMood_no_expression s d D L). auto.
  - rewrite (updateMood_no_detection s D). auto.
Qed.

Lemma tens_step s ev :
  settled2 s -> never_neutral ev ->
  (first_label (V2.detections s) <> Some "neutral"%string /\
   0 <= V2.mood s <= 180 /\ (10 | V2.mood s)) ->
  first_label (V2.detections (V2.step s ev)) <> Some "neutral"%string /\
  0 <= V2.mood (V2.step s ev) <= 180 /\ (10 | V2.mood (V2.step s ev)).
Proof.
  intros H NN I.
  destruct ev as [e| | |w h|r].
  - rewrite (step2_outside_frames s (Env e) H)
      by (intros ? ? K; discriminate K).
    destruct e; exact I.
  - rewrite (step2_outside_frames s ModelLoaded H)
      by (intros ? ? K; discriminate K).
    exact I.
  - rewrite (step2_outside_frames s StreamReady H)
      by (intros ? ? K; discriminate K).
    cbn. unfold V2.handleStream.
    destruct (V2.videoElement s), (V2.canvasElement s); exact I.
  - destruct (frame2_cases s w h H)
      as [->|[(n & _ & _ & ->)|(n & c & v & _ & _ & _ & _ & ->)]];
      try exact I.
    cbn. destruct I as (I1 & I2 & I3).
    split; [exact I1|]. now apply updateMood_on_tens.
  - rewrite (step2_outside_frames s (DetectionDone r) H)
      by (intros ? ? K; discriminate K).
    cbn. unfold V2.detectFaces_resume.
    destruct (V2.inFlight s); [exact I|].
    cbn. destruct I as (_ & I2 & I3). auto.
Qed.

(** X15: the mood leaves [0, 180] only through a 'neutral' reading: on a
    run where the engine never ranks 'neutral' first, the mood is a
    multiple of 10 between 0 and 180. *)
Theorem X15_no_overshoot_without_neutral evs :
  Forall never_neutral evs ->
  0 <= V2.mood (V2.run evs V2.init) <= 180 /\
  (10 | V2.mood (V2.run evs V2.init)).
Proof.
  intros A.
  assert (K : first_label (V2.detections (V2.run evs V2.init))
                <> Some "neutral"%string /\
              0 <= V2.mood (V2.run evs V2.init) <= 180 /\
              (10 | V2.mood (V2.run evs V2.init))).
  { induction evs as [|ev evs IH] using rev_ind.
    - cbn. split; [discriminate|]. split; [lia | exists 18; lia].
    - apply Forall_app in A. destruct A as [A1 A2].
      inversion A2; subst. rewrite run2_snoc.
      apply tens_step; auto using settled2_reached. }
  destruct K as (_ & K). exact K.
Qed.

Lemma X15_no_overshoot_without_neutral_witness :
  let evs := startup ++ [Frame 640 480; DetectionDone (Some (face "sad"));
                         Frame 640 480; DetectionDone (Some (face "happy"));
                         Frame 640 480; Frame 640 480] in
  Forall never_neutral evs /\
  0 <= V2.mood (V2.run evs V2.init) <= 180 /\
  (10 | V2.mood (V2.run evs V2.init)).
Proof.
  cbv zeta.
  assert (A : Forall never_neutral
                (startup ++ [Frame 640 480;
                             DetectionDone (Some (face "sad"));
                             Frame 640 480;
                             DetectionDone (Some (face "happy"));
                             Frame 640 480; Frame 640 480]))
    by (repeat constructor; intros K; discriminate K).
  split; [exact A|].
  exact (X15_no_overshoot_without_neutral _ A).
Defined.

Lemma updateMood_filterElement s d label f :
  V2.detections s = Some d -> top_expression d = Some label ->
  V2.filterElement s = Some f ->
  V2.filterElement (V2.updateMood s)
    = Some (mkFilterElement (Some (Qmake (V2.mood (V2.updateMood s)) 180))).
Proof.
  intros D T F. unfold V2.updateMood. rewrite D.
  unfold top_expression in T.
  destruct (asSortedArray (expressions d)) as [|e rest]; [discriminate|].
  repeat match goal with
         | |- context [(?a =? ?b)%string] => destruct (a =? b)%string
         end; cbn; rewrite F; reflexivity.
Qed.

(** X14: in a processed frame, if the overlay element is bound and the
    stored detection ranks a label, known or not, the overlay alpha
    becomes mood / 180 for the mood the frame leaves, which lies between 0
    and 185, so the alpha can exceed 1; if nothing is ranked the overlay
    is left as it was. *)
Theorem X14_overlay_alpha_is_mood_over_180 s n c v w h f :
  V2.reachable s ->
  V2.frameCallbacks s = S n ->
  V2.canvasElement s = Some c -> context2d c = true ->
  V2.videoElement s = Some v ->
  V2.filterElement s = Some f ->
  (forall label,
     first_label (V2.detections s) = Some label ->
     V2.filterElement (V2.step s (Frame w h))
       = Some (mkFilterElement
                 (Some (Qmake (V2.mood (V2.step s (Frame w h))) 180))) /\
     0 <= V2.mood (V2.step s (Frame w h)) <= 185) /\
  (first_label (V2.detections s) = None ->
   V2.filterElement (V2.step s (Frame w h)) = Some f).
Proof.
  intros R F C X V E.
  pose proof (frame2_effect s n w h c v (reachable2_settled s R) F C X V)
    as Q.
  split.
  - intros label L.
    destruct (reachable_mood_ok _ (reachable2_step s (Frame w h) R))
      as [B _].
    split; [|exact B].
    rewrite Q. cbn.
    destruct (V2.detections s) as [d|] eqn:D; [|discriminate].
    now apply (updateMood_filterElement s d label f).
  - intros L. rewrite Q. cbn.
    destruct (V2.detections s) as [d|] eqn:D.
    + now rewrite (updateMood_no_expression s d D L).
    + now rewrite (updateMood_no_detection s D).
Qed.

Lemma X14_overlay_alpha_is_mood_over_180_witness :
  let s := V2.run (two_moods "neutral" "happy") V2.init in
  let c := mkCanvas 640 480 true (Some "hue-rotate(175deg)"%string)
             [mkFaceLandmarks [(10, 20); (30, 40)]] 0 in
  let v := mkVideo false false true in
  let f := mkFilterElement (Some (Qmake 175 180)) in
  V2.reachable s /\
  V2.frameCallbacks s = 1%nat /\
  V2.canvasElement s = Some c /\ context2d c = true /\
  V2.videoElement s = Some v /\
  V2.filterElement s = Some f /\
  first_label (V2.detections s) = Some "happy"%string /\
  V2.filterElement (V2.step s (Frame 640 480))
    = Some (mkFilterElement
              (Some (Qmake (V2.mood (V2.step s (Frame 640 480))) 180))) /\
  0 <= V2.mood (V2.step s (Frame 640 480)) <= 185.
Proof.
  cbv zeta.
  assert (R : V2.reachable (V2.run (two_moods "neutral" "happy") V2.init))
    by (eexists; reflexivity).
  assert (F : V2.frameCallbacks (V2.run (two_moods "neutral" "happy") V2.init)
              = 1%nat) by (vm_compute; reflexivity).
  assert (C : V2.canvasElement (V2.run (two_moods "neutral" "happy") V2.init)
              = Some (mkCanvas 640 480 true
                        (Some "hue-rotate(175deg)"%string)
                        [mkFaceLandmarks [(10, 20); (30, 40)]] 0))
    by (vm_compute; reflexivity).
  assert (V : V2.videoElement (V2.run (two_moods "neutral" "happy") V2.init)
              = Some (mkVideo false false true))
    by (vm_compute; reflexivity).
  assert (E : V2.filterElement (V2.run (two_moods "neutral" "happy") V2.init)
              = Some (mkFilterElement (Some (Qmake 175 180))))
    by (vm_compute; reflexivity).
  assert (L : first_label
                (V2.detections (V2.run (two_moods "neutral" "happy") V2.init))
              = Some "happy"%string) by (vm_compute; reflexivity).
  split; [exact R|]. split; [exact F|]. split; [exact C|].
  split; [reflexivity|]. split; [exact V|]. split; [exact E|].
  split; [exact L|].
  exact (proj1 (X14_overlay_alpha_is_mood_over_180 _ _ _ _ 640%N 480%N _
                  R F C eq_refl V E) _ L).
Defined.

End V2_moods.

Section V2_reach.

Lemma run2_app evs1 evs2 s :
  V2.run (evs1 ++ evs2) s = V2.run evs2 (V2.run evs1 s).
Proof. unfold V2.run. apply fold_left_app. Qed.

Lemma frame2_mood s n c v w h d label :
  V2.reachable s ->
  V2.frameCallbacks s = S n ->
  V2.canvasElement s = Some c -> context2d c = true ->
  V2.videoElement s = Some v ->
  V2.detections s = Some d -> top_expression d = Some label ->
  V2.mood (V2.step s (Frame w h)) = V2.mood_transition label (V2.mood s).
Proof.
  intros R F C X V D T.
  rewrite (frame2_effect s n w h c v (reachable2_settled s R) F C X V).
  cbn. now apply updateMood_mood with d.
Qed.

(** Frames alone repeat the transition of the stored detection. *)
Lemma frames2_iterate sizes : forall s n c v d label,
  V2.reachable s ->
  V2.frameCallbacks s = S n ->
  V2.canvasElement s = Some c -> context2d c = true ->
  V2.videoElement s = Some v ->
  V2.detections s = Some d -> top_expression d = Some label ->
  V2.mood (V2.run (frames sizes) s)
    = Nat.iter (length sizes) (V2.mood_transition label) (V2.mood s).
Proof.
  induction sizes as [|[w h] sizes IH]; intros s n c v d label R F C X V D T.
  - reflexivity.
  - change (V2.run (frames ((w, h) :: sizes)) s)
      with (V2.run (frames sizes) (V2.step s (Frame w h))).
    pose proof (frame2_effect s n w h c v (reachable2_settled s R) F C X V)
      as Q.
    rewrite (IH (V2.step s (Frame w h)) n
               (mkCanvas w h true
                  (Some (V2.filter_style (V2.mood (V2.updateMood s))))
                  (landmarksDrawn c ++ drawn_for (V2.detections s))
                  (imagesDrawn c)) v d label);
      try (rewrite Q; reflexivity); auto using reachable2_step.
    + rewrite (frame2_mood s n c v w h d label R F C X V D T).
      cbn [length]. now rewrite Nat.iter_succ_r.
    + rewrite Q. exact D.
Qed.

Lemma neutral_descent j :
  (j <= 36)%nat ->
  Nat.iter j (V2.mood_transition "neutral") 180 = 180 - 5 * Z.of_nat j.
Proof.
  induction j as [|j IH]; intros B; [reflexivity|].
  rewrite Nat.iter_succ, IH by lia.
  unfold V2.mood_transition. cbn [String.eqb Ascii.eqb Bool.eqb].
  destruct (Z.gtb_spec (180 - 5 * Z.of_nat j) 0); lia.
Qed.

(** X2: every multiple of 5 from 0 to 185 is the mood after some run of
    the second variant, so that range is exact. *)
Theorem X2_every_mood_on_the_grid_is_reached k :
  0 <= k <= 37 -> exists evs, V2.mood (V2.run evs V2.init) = 5 * k.
Proof.
  intros B. destruct (Z.eq_dec k 37) as [->|N].
  - exists (two_moods "neutral" "happy" ++ [Frame 640 480]).
    vm_compute. reflexivity.
  - set (base := startup ++ [Frame 640 480;
                             DetectionDone (Some (face "neutral"))]).
    set (j := Z.to_nat (36 - k)).
    exists (base ++ frames (repeat (640%N, 480%N) j)).
    rewrite run2_app.
    assert (R : V2.reachable (V2.run base V2.init)) by (eexists; reflexivity).
    assert (F : V2.frameCallbacks (V2.run base V2.init) = 1%nat)
      by (vm_compute; reflexivity).
    assert (C : V2.canvasElement (V2.run base V2.init)
                = Some (mkCanvas 640 480 true
                          (Some "hue-rotate(180deg)"%string) [] 0))
      by (vm_compute; reflexivity).
    assert (V : V2.videoElement (V2.run base V2.init)
                = Some (mkVideo false false true))
      by (vm_compute; reflexivity).
    assert (D : V2.detections (V2.run base V2.init)
                = Some (face "neutral")) by (vm_compute; reflexivity).
    assert (M : V2.mood (V2.run base V2.init) = 180)
      by (vm_compute; reflexivity).
    rewrite (frames2_iterate _ _ _ _ _ _ "neutral"%string
               R F C eq_refl V D eq_refl).
    rewrite M, repeat_length, neutral_descent by lia. lia.
Qed.

Lemma X2_every_mood_on_the_grid_is_reached_witness :
  0 <= 20 <= 37 /\ exists evs, V2.mood (V2.run evs V2.init) = 5 * 20.
Proof.
  assert (B : 0 <= 20 <= 37) by lia.
  split; [exact B|].
  exact (X2_every_mood_on_the_grid_is_reached 20 B).
Defined.

(** X12: [resizeCanvas] keeps nothing of an earlier call: two calls in a
    row leave the state of the second alone, in both variants. *)
Theorem X12_resize_last_call_wins :
  (forall s sz1 sz2,
     V2.resizeCanvas sz2 (V2.resizeCanvas sz1 s) = V2.resizeCanvas sz2 s) /\
  (forall s sz1 sz2,
     V1.resizeCanvas sz2 (V1.resizeCanvas sz1 s) = V1.resizeCanvas sz2 s).
Proof.
  split; intros s sz1 sz2.
  - unfold V2.resizeCanvas.
    destruct (V2.canvasElement s) as [c|] eqn:C; cbn; [reflexivity|].
    now rewrite C.
  - unfold V1.resizeCanvas.
    destruct (V1.canvasElement s) as [c|] eqn:C;
      destruct (V1.canvasRawElement s) as [r|] eqn:K; cbn;
      rewrite ?C, ?K; reflexivity.
Qed.

Lemma append_cancel_r c : forall a b : string,
  (a ++ c = b ++ c)%string -> a = b.
Proof.
  assert (L : forall a b : string,
             String.length (a ++ b) = (String.length a + String.length b)%nat).
  { induction a as [|x a IH]; intros b; cbn; [reflexivity|].
    now rewrite IH. }
  induction a as [|x a IH]; intros [|y b] E; cbn in E.
  - reflexivity.
  - apply (f_equal String.length) in E. cbn in E. rewrite L in E. lia.
  - apply (f_equal String.length) in E. cbn in E. rewrite L in E. lia.
  - injection E as -> E. f_equal. now apply IH.
Qed.

Lemma template_int_inj m m' : template_int m = template_int m' -> m = m'.
Proof.
  unfold template_int. intros E.
  assert (P : forall z, Z.to_int z <> Decimal.Pos Decimal.Nil /\
                        Z.to_int z <> Decimal.Neg Decimal.Nil).
  { intros [|p|p]; cbn; split; try discriminate;
      intros K; injection K as K;
      exact (DecimalPos.Unsigned.to_uint_nonnil p K). }
  apply (f_equal NilZero.int_of_string) in E.
  rewrite !NilZero.isi in E by apply P.
  injection E as E. now apply DecimalZ.to_int_inj.
Qed.

Lemma filter_style_inj m m' :
  V2.filter_style m = V2.filter_style m' -> m = m'.
Proof.
  intros E. unfold V2.filter_style in E.
  cbn [append] in E.
  repeat (injection E as E).
  apply template_int_inj. now apply append_cancel_r with ("deg)"%string).
Qed.

(** X17: the filter string tells the mood: two states the hook can reach
    with different moods never get the same [hue-rotate] style. *)
Theorem X17_filter_style_tells_the_mood s s' :
  V2.reachable s -> V2.reachable s' ->
  V2.mood s <> V2.mood s' ->
  V2.filter_style (V2.mood s) <> V2.filter_style (V2.mood s').
Proof.
  intros _ _ N E. apply N. now apply filter_style_inj.
Qed.

Lemma X17_filter_style_tells_the_mood_witness :
  let s := V2.run (two_moods "neutral" "happy") V2.init in
  let s' := V2.run (two_moods "neutral" "happy" ++ [Frame 640 480])
              V2.init in
  V2.reachable s /\ V2.reachable s' /\
  V2.mood s <> V2.mood s' /\
  V2.filter_style (V2.mood s) <> V2.filter_style (V2.mood s').
Proof.
  cbv zeta.
  assert (R : V2.reachable (V2.run (two_moods "neutral" "happy") V2.init))
    by (eexists; reflexivity).
  assert (R' : V2.reachable
                 (V2.run (two_moods "neutral" "happy" ++ [Frame 640 480])
                    V2.init)) by (eexists; reflexivity).
  assert (N : V2.mood (V2.run (two_moods "neutral" "happy") V2.init)
              <> V2.mood (V2.run (two_moods "neutral" "happy"
                                    ++ [Frame 640 480]) V2.init))
    by (vm_compute; discriminate).
  split; [exact R|]. split; [exact R'|]. split; [exact N|].
  exact (X17_filter_style_tells_the_mood _ _ R R' N).
Defined.

End V2_reach.

Section V2_stream.

(** X16: a stream delivered while the video or the canvas is not bound
    registers no frame callback; as the camera is asked once, the loop
    then never starts: with no other delivery, frames change nothing. *)
Theorem X16_stream_before_the_elements_never_starts_the_loop s rest :
  V2.reachable s ->
  V2.frameCallbacks s = O ->
  V2.videoElement s = None \/ V2.canvasElement s = None ->
  streams rest = O ->
  V2.frameCallbacks (V2.run (StreamReady :: rest) s) = O /\
  V2.mood (V2.run (StreamReady :: rest) s) = V2.mood s /\
  V2.size (V2.run (StreamReady :: rest) s) = V2.size s /\
  V2.console (V2.run (StreamReady :: rest) s) = V2.console s /\
  (V2.inFlight (V2.run (StreamReady :: rest) s) <= V2.inFlight s)%nat.
Proof.
  intros R F G N. pose proof (reachable2_settled s R) as H.
  change (V2.run (StreamReady :: rest) s)
    with (V2.run rest (V2.step s StreamReady)).
  assert (E : V2.step s StreamReady = s).
  { rewrite (step2_outside_frames s StreamReady H)
      by (intros ? ? K; discriminate K).
    cbn. unfold V2.handleStream.
    destruct G as [->| ->]; [reflexivity|].
    now destruct (V2.videoElement s). }
  rewrite E. now apply idle2_run.
Qed.

Lemma X16_stream_before_the_elements_never_starts_the_loop_witness :
  let s := V2.run [Env (BindVideo (Some idle_video)); ModelLoaded] V2.init in
  let rest := [Env (BindCanvas (Some blank_canvas)); Frame 640 480;
               Frame 640 480] in
  V2.reachable s /\
  V2.frameCallbacks s = O /\
  (V2.videoElement s = None \/ V2.canvasElement s = None) /\
  streams rest = O /\
  V2.frameCallbacks (V2.run (StreamReady :: rest) s) = O /\
  V2.mood (V2.run (StreamReady :: rest) s) = V2.mood s /\
  V2.size (V2.run (StreamReady :: rest) s) = V2.size s /\
  V2.console (V2.run (StreamReady :: rest) s) = V2.console s /\
  (V2.inFlight (V2.run (StreamReady :: rest) s) <= V2.inFlight s)%nat.
Proof.
  cbv zeta.
  assert (R : V2.reachable
                (V2.run [Env (BindVideo (Some idle_video)); ModelLoaded]
                   V2.init)) by (eexists; reflexivity).
  assert (G : V2.videoElement
                (V2.run [Env (BindVideo (Some idle_video)); ModelLoaded]
                   V2.init) = None \/
              V2.canvasElement
                (V2.run [Env (BindVideo (Some idle_video)); ModelLoaded]
                   V2.init) = None) by (right; reflexivity).
  split; [exact R|]. split; [reflexivity|]. split; [exact G|].
  split; [reflexivity|].
  exact (X16_stream_before_the_elements_never_starts_the_loop _
           [Env (BindCanvas (Some blank_canvas)); Frame 640 480;
            Frame 640 480] R eq_refl G eq_refl).
Defined.

End V2_stream.

Section V1_frames.

Lemma runMicrotasks1_settled s :
  V1.microtasks s = [] -> V1.runMicrotasks s = s.
Proof. destruct s; cbn. intros ->. reflexivity. Qed.

Lemma microtasks_addLandmarks_resume1 a s :
  V1.microtasks (V1.addLandmarks_resume a s) = V1.microtasks s.
Proof.
  unfold V1.addLandmarks_resume.
  destruct (awaited_landmarks a); [destruct (V1.canvasElement s)|];
    reflexivity.
Qed.

Lemma microtasks_drain1 q : forall s,
  V1.microtasks (fold_left (fun s a => V1.addLandmarks_resume a s) q s)
    = V1.microtasks s.
Proof.
  induction q as [|a q IH]; intros s; simpl; [reflexivity|].
  now rewrite IH, microtasks_addLandmarks_resume1.
Qed.

Lemma reachable1_settled s : V1.reachable s -> settled1 s.
Proof.
  intros [evs ->]. split.
  - pose proof (run1_cells evs) as E. unfold cells1 in E.
    now injection E as _ L _.
  - destruct evs as [|ev evs _] using rev_ind; [reflexivity|].
    rewrite run1_snoc. unfold V1.step, V1.runMicrotasks.
    now rewrite microtasks_drain1.
Qed.

Lemma reachable1_flag s :
  V1.reachable s -> V1.previousDetectionFinished s = true.
Proof.
  intros [evs ->]. pose proof (run1_cells evs) as E. unfold cells1 in E.
  now injection E as _ _ D.
Qed.

(** A frame of the first variant that finds both contexts. *)
Lemma frame1_effect s n w h r c v :
  settled1 s ->
  V1.frameCallbacks s = S n ->
  V1.canvasRawElement s = Some r -> context2d r = true ->
  V1.canvasElement s = Some c -> context2d c = true ->
  V1.videoElement s = Some v ->
  V1.step s (Frame w h) =
    V1.mkState (V1.modelLoaded s) (Some v)
      (Some (mkCanvas w h true (style_filter r) (landmarksDrawn r)
               (S (imagesDrawn r))))
      (Some (mkCanvas w h true (Some (V1.filter_style (V1.mood s)))
               (landmarksDrawn c ++ drawn_for (V1.detections s))
               (imagesDrawn c)))
      (w, h) (V1.detections s) (V1.mood s) true
      (V1.previousDetectionFinished s) (V1.inFlight (V1.detectFaces s)) []
      (S n).
Proof.
  destruct s as [ml ve re ce sz d m pl pd fl q fc].
  intros [L Q] F R XR C XC V. cbn in L, Q, F, R, C, V. subst.
  destruct r as [rw rh rx rf rl ri]. cbn in XR. subst rx.
  destruct c as [cw ch cx cf cl ci]. cbn in XC. subst cx.
  destruct v as [p e so].
  destruct ml, p, e, pd, d as [[[lm|] ex]|];
    unfold drawn_for;
    cbn [V1.detections awaited_landmarks landmarks landmarksDrawn];
    rewrite ?app_nil_r; reflexivity.
Qed.

(** A frame of the first variant whose visible canvas gives no context. *)
Lemma frame1_contextless s n w h r c v :
  settled1 s ->
  V1.frameCallbacks s = S n ->
  V1.canvasRawElement s = Some r -> context2d r = true ->
  V1.canvasElement s = Some c -> context2d c = false ->
  V1.videoElement s = Some v ->
  V1.step s (Frame w h) =
    V1.mkState (V1.modelLoaded s) (Some v)
      (Some (mkCanvas w h true (style_filter r) (landmarksDrawn r)
               (S (imagesDrawn r))))
      (Some (mkCanvas w h false (style_filter c) (landmarksDrawn c)
               (imagesDrawn c)))
      (w, h) (V1.detections s) (V1.mood s) true
      (V1.previousDetectionFinished s) (V1.inFlight s) [] (S n).
Proof.
  destruct s as [ml ve re ce sz d m pl pd fl q fc].
  intros [L Q] F R XR C XC V. cbn in L, Q, F, R, C, V. subst.
  destruct r as [rw rh rx rf rl ri]. cbn in XR. subst rx.
  destruct c as [cw ch cx cf cl ci]. cbn in XC. subst cx.
  reflexivity.
Qed.

(** X10: in the first variant a frame that finds the raw canvas with its
    context and a visible canvas that gives no 2d context still resizes
    both canvases, draws the video image on the raw one and asks for the
    next frame, but [handleImage] returns at once: no detection is
    started, no landmark drawn and the filter of the visible canvas is
    left as it was. *)
Theorem X10_first_variant_frame_without_visible_context s n w h r c v :
  V1.reachable s ->
  V1.frameCallbacks s = S n ->
  V1.canvasRawElement s = Some r -> context2d r = true ->
  V1.canvasElement s = Some c -> context2d c = false ->
  V1.videoElement s = Some v ->
  V1.size (V1.step s (Frame w h)) = (w, h) /\
  V1.canvasRawElement (V1.step s (Frame w h))
    = Some (mkCanvas w h true (style_filter r) (landmarksDrawn r)
              (S (imagesDrawn r))) /\
  V1.canvasElement (V1.step s (Frame w h))
    = Some (mkCanvas w h false (style_filter c) (landmarksDrawn c)
              (imagesDrawn c)) /\
  V1.inFlight (V1.step s (Frame w h)) = V1.inFlight s /\
  V1.frameCallbacks (V1.step s (Frame w h)) = S n.
Proof.
  intros R F C X E Y V.
  rewrite (frame1_contextless s n w h r c v (reachable1_settled s R)
             F C X E Y V).
  cbn. auto.
Qed.

Lemma X10_first_variant_frame_without_visible_context_witness :
  let bare := mkCanvas 300 150 false None [] 0 in
  let s := V1.run [Env (BindVideo (Some idle_video));
                   Env (BindCanvas (Some bare));
                   Env (BindCanvasRaw (Some blank_canvas));
                   ModelLoaded; StreamReady] V1.init in
  let v := mkVideo false false true in
  V1.reachable s /\
  V1.frameCallbacks s = 1%nat /\
  V1.canvasRawElement s = Some blank_canvas /\
  context2d blank_canvas = true /\
  V1.canvasElement s = Some bare /\ context2d bare = false /\
  V1.videoElement s = Some v /\
  V1.size (V1.step s (Frame 1280 720)) = (1280%N, 720%N) /\
  V1.canvasRawElement (V1.step s (Frame 1280 720))
    = Some (mkCanvas 1280 720 true (style_filter blank_canvas)
              (landmarksDrawn blank_canvas)
              (S (imagesDrawn blank_canvas))) /\
  V1.canvasElement (V1.step s (Frame 1280 720))
    = Some (mkCanvas 1280 720 false (style_filter bare)
              (landmarksDrawn bare) (imagesDrawn bare)) /\
  V1.inFlight (V1.step s (Frame 1280 720)) = V1.inFlight s /\
  V1.frameCallbacks (V1.step s (Frame 1280 720)) = 1%nat.
Proof.
  cbv zeta.
  assert (R : V1.reachable
                (V1.run [Env (BindVideo (Some idle_video));
                         Env (BindCanvas
                                (Some (mkCanvas 300 150 false None [] 0)));
                         Env (BindCanvasRaw (Some blank_canvas));
                         ModelLoaded; StreamReady] V1.init))
    by (eexists; reflexivity).
  assert (F : V1.frameCallbacks
                (V1.run [Env (BindVideo (Some idle_video));
                         Env (BindCanvas
                                (Some (mkCanvas 300 150 false None [] 0)));
                         Env (BindCanvasRaw (Some blank_canvas));
                         ModelLoaded; StreamReady] V1.init) = 1%nat)
    by (vm_compute; reflexivity).
  assert (C : V1.canvasRawElement
                (V1.run [Env (BindVideo (Some idle_video));
                         Env (BindCanvas
                                (Some (mkCanvas 300 150 false None [] 0)));
                         Env (BindCanvasRaw (Some blank_canvas));
                         ModelLoaded; StreamReady] V1.init)
              = Some blank_canvas) by (vm_compute; reflexivity).
  assert (E : V1.canvasElement
                (V1.run [Env (BindVideo (Some idle_video));
                         Env (BindCanvas
                                (Some (mkCanvas 300 150 false None [] 0)));
                         Env (BindCanvasRaw (Some blank_canvas));
                         ModelLoaded; StreamReady] V1.init)
              = Some (mkCanvas 300 150 false None [] 0))
    by (vm_compute; reflexivity).
  assert (V : V1.videoElement
                (V1.run [Env (BindVideo (Some idle_video));
                         Env (BindCanvas
                                (Some (mkCanvas 300 150 false None [] 0)));
                         Env (BindCanvasRaw (Some blank_canvas));
                         ModelLoaded; StreamReady] V1.init)
              = Some (mkVideo false false true))
    by (vm_compute; reflexivity).
  split; [exact R|]. split; [exact F|]. split; [exact C|].
  split; [reflexivity|]. split; [exact E|]. split; [reflexivity|].
  split; [exact V|].
  exact (X10_first_variant_frame_without_visible_context _ _
           1280%N 720%N _ _ _ R F C eq_refl E eq_refl V).
Defined.

(** X11: in the first variant a frame that finds both contexts gives both
    canvases the reported size, draws the video image on the raw canvas
    only and the landmarks of the stored detection on the visible canvas
    only, and starts one detection exactly when the model is loaded and the
    video neither paused nor ended. *)
Theorem X11_first_variant_frame_feeds_both_canvases s n w h r c v :
  V1.reachable s ->
  V1.frameCallbacks s = S n ->
  V1.canvasRawElement s = Some r -> context2d r = true ->
  V1.canvasElement s = Some c -> context2d c = true ->
  V1.videoElement s = Some v ->
  V1.canvasRawElement (V1.step s (Frame w h))
    = Some (mkCanvas w h true (style_filter r) (landmarksDrawn r)
              (S (imagesDrawn r))) /\
  V1.canvasElement (V1.step s (Frame w h))
    = Some (mkCanvas w h true
              (Some "sepia(1) saturate(4) hue-rotate(0deg)"%string)
              (landmarksDrawn c ++ drawn_for (V1.detections s))
              (imagesDrawn c)) /\
  V1.inFlight (V1.step s (Frame w h)) =
    (if V1.modelLoaded s && negb (paused v) && negb (ended v)
     then S (V1.inFlight s) else V1.inFlight s) /\
  V1.frameCallbacks (V1.step s (Frame w h)) = S n.
Proof.
  intros R F C X E Y V.
  rewrite (frame1_effect s n w h r c v (reachable1_settled s R)
             F C X E Y V).
  cbn [V1.canvasRawElement V1.canvasElement V1.inFlight V1.frameCallbacks].
  assert (M : V1.mood s = 0).
  { destruct R as [evs ->]. pose proof (run1_cells evs) as K.
    now injection K. }
  rewrite M. repeat split.
  unfold V1.detectFaces. rewrite V, (reachable1_flag s R).
  destruct (V1.modelLoaded s), (paused v), (ended v); reflexivity.
Qed.

Lemma X11_first_variant_frame_feeds_both_canvases_witness :
  let s := V1.run (startup ++ [Frame 640 480;
                               DetectionDone (Some (face "happy"))])
             V1.init in
  let r := mkCanvas 640 480 true None [] 1 in
  let c := mkCanvas 640 480 true
             (Some "sepia(1) saturate(4) hue-rotate(0deg)"%string) [] 0 in
  let v := mkVideo false false true in
  V1.reachable s /\
  V1.frameCallbacks s = 1%nat /\
  V1.canvasRawElement s = Some r /\ context2d r = true /\
  V1.canvasElement s = Some c /\ context2d c = true /\
  V1.videoElement s = Some v /\
  V1.canvasRawElement (V1.step s (Frame 1280 720))
    = Some (mkCanvas 1280 720 true (style_filter r) (landmarksDrawn r)
              (S (imagesDrawn r))) /\
  V1.canvasElement (V1.step s (Frame 1280 720))
    = Some (mkCanvas 1280 720 true
              (Some "sepia(1) saturate(4) hue-rotate(0deg)"%string)
              (landmarksDrawn c ++ drawn_for (V1.detections s))
              (imagesDrawn c)) /\
  V1.inFlight (V1.step s (Frame 1280 720)) =
    (if V1.modelLoaded s && negb (paused v) && negb (ended v)
     then S (V1.inFlight s) else V1.inFlight s) /\
  V1.frameCallbacks (V1.step s (Frame 1280 720)) = 1%nat.
Proof.
  cbv zeta.
  assert (R : V1.reachable
                (V1.run (startup ++ [Frame 640 480;
                                     DetectionDone (Some (face "happy"))])
                   V1.init)) by (eexists; reflexivity).
  assert (F : V1.frameCallbacks
                (V1.run (startup ++ [Frame 640 480;
                                     DetectionDone (Some (face "happy"))])
                   V1.init) = 1%nat) by (vm_compute; reflexivity).
  assert (C : V1.canvasRawElement
                (V1.run (startup ++ [Frame 640 480;
                                     DetectionDone (Some (face "happy"))])
                   V1.init) = Some (mkCanvas 640 480 true None [] 1))
    by (vm_compute; reflexivity).
  assert (E : V1.canvasElement
                (V1.run (startup ++ [Frame 640 480;
                                     DetectionDone (Some (face "happy"))])
                   V1.init)
              = Some (mkCanvas 640 480 true
                        (Some "sepia(1) saturate(4) hue-rotate(0deg)"%string)
                        [] 0)) by (vm_compute; reflexivity).
  assert (V : V1.videoElement
                (V1.run (startup ++ [Frame 640 480;
                                     DetectionDone (Some (face "happy"))])
                   V1.init) = Some (mkVideo false false true))
    by (vm_compute; reflexivity).
  split; [exact R|]. split; [exact F|]. split; [exact C|].
  split; [reflexivity|]. split; [exact E|]. split; [reflexivity|].
  split; [exact V|].
  exact (X11_first_variant_frame_feeds_both_canvases _ _
           1280%N 720%N _ _ _ R F C eq_refl E eq_refl V).
Defined.

End V1_frames.
